(** * AquiferPulse: the stress-index pipeline and its query layer

    A shallow embedding of [scripts/compute_asi.py] (module [Pipeline]) and of
    the read-only routes of [app/main.py] (module [App]).

    Numbers.  A pandas/numpy float cell is modelled as [option R]: [None] is
    NaN (a missing value), [Some x] is the finite number [x].  Arithmetic is
    the arithmetic of the reals, so rounding error of the binary
    representation is not part of the model; NaN propagates through every
    operation as it does in numpy.

    Dates.  After [_to_month] a date is a month-start timestamp or NaT.  A
    month is modelled by its index (12 * year + month - 1) and NaT by [None];
    the text [YYYY-MM-01] written by [strftime] is ordered like this index.

    Frames.  The pipeline is modelled from the merged wide frame (the value of
    [df] after the outer merge): a list of rows in index order, with flags
    recording which value columns the merge produced.

    Texts.  A text is a [string] of ASCII characters; texts with characters
    outside ASCII are not covered.

    Binary64.  Exact arithmetic and binary64 arithmetic differ in kind, not
    only by rounding, at the guard [sd > 0] of [z]: a deviation that is 0 in
    the reals can be a tiny positive double.  Module [F64] repeats the
    arithmetic of [z] on doubles, so that this guard can be evaluated as the
    program evaluates it. *)

From Stdlib Require Import Floats.PrimFloat.
From Stdlib Require Import Reals Lra Lia String Ascii ZArith Bool List.
From Stdlib Require Import Sorting.Sorted Sorting.Permutation Structures.OrdersEx.
From Stdlib Require Import Classes.RelationClasses.
Import ListNotations.
Open Scope R_scope.

(** ** Float cells with NaN *)

Module Np.

Definition value := option R.
Definition nan : value := None.
Definition Series := list value.

Definition notna (v : value) : bool :=
  match v with Some _ => true | None => false end.

Definition isna (v : value) : bool := negb (notna v).

Definition fillna (d : R) (v : value) : R :=
  match v with Some x => x | None => d end.

(** Binary operations propagate NaN. *)
Definition lift2 (op : R -> R -> R) (a b : value) : value :=
  match a, b with
  | Some x, Some y => Some (op x y)
  | _, _ => None
  end.

Definition fsub := lift2 Rminus.
Definition fdiv := lift2 Rdiv.
Definition fneg (a : value) : value := option_map Ropp a.

(** [v > 0]; a comparison with NaN is false. *)
Definition gt0 (v : value) : bool :=
  match v with
  | Some x => if Rlt_dec 0 x then true else false
  | None => false
  end.

Fixpoint dropna (s : Series) : list R :=
  match s with
  | [] => []
  | Some x :: s' => x :: dropna s'
  | None :: s' => dropna s'
  end.

Definition Rsum (l : list R) : R := fold_right Rplus 0 l.

Definition avg (xs : list R) : R := Rsum xs / INR (length xs).

(** Population variance of the non-missing values. *)
Definition pvar (xs : list R) : R :=
  Rsum (map (fun x => (x - avg xs) * (x - avg xs)) xs) / INR (length xs).

(** [Series.mean()]: NaN entries are skipped; NaN when nothing is left. *)
Definition mean (s : Series) : value :=
  match dropna s with
  | [] => nan
  | xs => Some (avg xs)
  end.

(** [Series.std(ddof=0)]: NaN entries are skipped; NaN when nothing is
    left; a single observation has standard deviation 0. *)
Definition std0 (s : Series) : value :=
  match dropna s with
  | [] => nan
  | xs => Some (sqrt (pvar xs))
  end.

(** Round half to even, as Python's [round] does on an exact tie. *)
Definition round_half_even (y : R) : Z :=
  let f := Zfloor y in
  let d := y - IZR f in
  if Rlt_dec d (1/2) then f
  else if Rlt_dec (1/2) d then (f + 1)%Z
  else if Z.even f then f else (f + 1)%Z.

(** [round(x, nd)] *)
Definition round (x : R) (nd : nat) : R :=
  IZR (round_half_even (x * 10 ^ nd)) / 10 ^ nd.

End Np.
Import Np.

(** ** The arithmetic of a group score on doubles *)

Module F64.

(** [values.sum()]: the entries are added one after the other. *)
Definition fsum (l : list PrimFloat.float) : PrimFloat.float :=
  fold_left PrimFloat.add l 0%float.

Definition notna (x : PrimFloat.float) : bool := negb (PrimFloat.is_nan x).

(** The number of entries that are not NaN, as a double. *)
Fixpoint of_nat (n : nat) : PrimFloat.float :=
  match n with
  | O => 0%float
  | S n' => (of_nat n' + 1)%float
  end.

Definition count (s : list PrimFloat.float) : PrimFloat.float :=
  of_nat (length (filter notna s)).

(** NaN entries count as 0 in a sum. *)
Definition fill0 (x : PrimFloat.float) : PrimFloat.float :=
  if PrimFloat.is_nan x then 0%float else x.

(** [Series.mean()]: the sum of the entries over their number; NaN when no
    entry is left. *)
Definition mean (s : list PrimFloat.float) : PrimFloat.float :=
  (fsum (map fill0 s) / count s)%float.

(** [Series.std(ddof=0)]: the square root of the mean squared deviation from
    the mean. *)
Definition std0 (s : list PrimFloat.float) : PrimFloat.float :=
  let avg := mean s in
  let sqr := map (fun v => if PrimFloat.is_nan v then 0%float
                           else ((avg - v) * (avg - v))%float) s in
  PrimFloat.sqrt (fsum sqr / count s)%float.

(** The inner function [z] of [_z_by_basin] on doubles. *)
Definition z (s : list PrimFloat.float) : list PrimFloat.float :=
  let sd := std0 s in
  if (0 <? sd)%float
  then map (fun x => ((x - mean s) / sd)%float) s
  else map (fun _ => PrimFloat.nan) s.

End F64.

(** ** Stable sorting by a key comparison

    [list.sort] and [sort_values] are modelled by a stable insertion sort. *)

Section Sort.

Context {A : Type} (leb : A -> A -> bool).

Fixpoint insert (x : A) (l : list A) : list A :=
  match l with
  | [] => [x]
  | y :: l' => if leb x y then x :: l else y :: insert x l'
  end.

Definition sort (l : list A) : list A := fold_right insert [] l.

End Sort.

(** ** Values exchanged between the pipeline and the query layer *)

(** A numeric cell of the CSV table, as text: [Empty] is the empty text,
    [Num x] the decimal numeral of [x], [Text s] any text that is not a
    numeral. *)
Inductive Cell :=
| Empty
| Num (x : R)
| Text (s : string).

(** A line of [asi_table.csv] under its header. *)
Record CsvRow := mkCsv {
  c_basin_id : string;
  c_date : option Z;
  c_twsa : Cell;
  c_sm : Cell;
  c_rain : Cell;
  c_rain_def : Cell;
  c_twsa_z : Cell;
  c_sm_z : Cell;
  c_rain_z : Cell;
  c_rain_def_z : Cell;
  c_asi : Cell;
  c_class : string
}.

(** A feature of [basins.geojson]: its [id], and the [basin_id] and [name]
    properties when present.  The geometry is passed through untouched and is
    left out. *)
Record Basin := mkBasin {
  g_id : option string;
  g_basin_id : option string;
  g_name : option string
}.

(** A feature of a snapshot: the basin feature with the derived properties;
    [None] in a numeric property is JSON [null]. *)
Record Feature := mkFeature {
  f_basin : Basin;
  p_name : option string;
  p_date : option Z;
  p_twsa_z : value;
  p_sm_z : value;
  p_rain_z : value;
  p_rain_def_z : value;
  p_asi : value;
  p_class : string
}.

(** [s or d] on an optional text: [None] and the empty text are falsy. *)
Definition or_else (s : option string) (d : option string) : option string :=
  match s with
  | Some EmptyString => d
  | Some t => Some t
  | None => d
  end.

(** [str(p.get("basin_id"))] *)
Definition bid_of (g : Basin) : string :=
  match g_basin_id g with Some s => s | None => "None"%string end.

(** ** scripts/compute_asi.py *)

Module Pipeline.

Definition W_TWSA : R := 0.4.
Definition W_SM : R := 0.4.
Definition W_RAIN : R := 0.2.
Definition ALERT_T : R := -1.0.
Definition WATCH_T : R := -0.5.

(** Which value column the precipitation source supplied. *)
Inductive RainCol := rain | rain_def.

(** A row of the merged frame.  [precip] is the single value column taken
    from the precipitation source, named by [rain_col] of the frame. *)
Record Row := mkRow {
  basin_id : string;
  date : option Z;
  twsa : value;
  sm : value;
  precip : value
}.

Record Frame := mkFrame {
  rows : list Row;
  has_twsa : bool;
  has_sm : bool;
  rain_col : option RainCol
}.

(** The inner function [z] of [_z_by_basin], applied to one group, in exact
    arithmetic; [F64.z] is the same function on doubles. *)
Definition z (s : Series) : Series :=
  let sd := std0 s in
  if gt0 sd
  then map (fun x => fdiv (fsub x (mean s)) sd) s
  else map (fun _ => nan) s.

Definition same_basin (b : string) (r : Row) : bool :=
  String.eqb (basin_id r) b.

(** [groupby("basin_id")[col]]: the group of basin [b], in index order. *)
Definition group (df : list Row) (col : Row -> value) (b : string) : Series :=
  map col (filter (same_basin b) df).

(** Position of row [i] inside the group of basin [b]. *)
Definition rank (df : list Row) (b : string) (i : nat) : nat :=
  length (filter (same_basin b) (firstn i df)).

(** [groupby(...).transform(f)]: [f] is applied to every group and the
    results are put back at the index of the rows they come from. *)
Definition transform (df : list Row) (col : Row -> value)
    (f : Series -> Series) : Series :=
  map (fun i =>
         match nth_error df i with
         | Some r => nth (rank df (basin_id r) i)
                         (f (group df col (basin_id r))) nan
         | None => nan
         end)
      (seq 0 (length df)).

Definition _z_by_basin (df : list Row) (col : Row -> value) : Series :=
  transform df col z.

Definition _classify (asi : value) : string :=
  match asi with
  | None => "no-data"
  | Some a =>
      if Rle_dec a ALERT_T then "alert"
      else if Rle_dec a WATCH_T then "watch"
      else "normal"
  end%string.

(** An all-NaN column. *)
Definition nan_col (df : list Row) : Series := map (fun _ => nan) df.

(** [w = np.array([W_TWSA, W_SM, W_RAIN])] *)
Definition w : list R := [W_TWSA; W_SM; W_RAIN].

Definition b2r (b : bool) : R := if b then 1 else 0.

(** [(xs * ys).sum()] along one row. *)
Definition dot (xs ys : list R) : R :=
  Rsum (map (fun p => fst p * snd p) (combine xs ys)).

(** One row of [num], [den] and [asi]; [comp] is the row
    [twsa_z, sm_z, rain_z] of the frame [comp]. *)
Definition asi_of (comp : list value) : value :=
  let mask := map notna comp in
  let num := dot (map (fillna 0) comp) w in
  let den := dot (map b2r mask) w in
  if Rlt_dec 0 den then Some (num / den) else nan.

(** A row of the frame once every output column exists. *)
Record OutRow := mkOut {
  t_basin_id : string;
  t_date : option Z;
  t_twsa : value;
  t_sm : value;
  t_rain : value;
  t_rain_def : value;
  t_twsa_z : value;
  t_sm_z : value;
  t_rain_z : value;
  t_rain_def_z : value;
  t_asi : value;
  t_class : string
}.

Definition twsa_z_col (f : Frame) : Series :=
  if has_twsa f then _z_by_basin (rows f) twsa else nan_col (rows f).

Definition sm_z_col (f : Frame) : Series :=
  if has_sm f then _z_by_basin (rows f) sm else nan_col (rows f).

Definition rain_z_col (f : Frame) : Series :=
  match rain_col f with
  | Some rain => _z_by_basin (rows f) precip
  | Some rain_def => map fneg (_z_by_basin (rows f) precip)
  | None => nan_col (rows f)
  end.

Definition rain_def_z_col (f : Frame) : Series :=
  match rain_col f with
  | Some rain => map fneg (_z_by_basin (rows f) precip)
  | Some rain_def => _z_by_basin (rows f) precip
  | None => nan_col (rows f)
  end.

(** The frame after the z-score, ASI and class columns are assigned and
    the columns absent from it are created as NaN; index order. *)
Definition scored (f : Frame) : list OutRow :=
  map (fun ri : Row * nat =>
         let (r, i) := ri in
         let tz := nth i (twsa_z_col f) nan in
         let sz := nth i (sm_z_col f) nan in
         let rz := nth i (rain_z_col f) nan in
         let asi := asi_of [tz; sz; rz] in
         {| t_basin_id := basin_id r;
            t_date := date r;
            t_twsa := if has_twsa f then twsa r else nan;
            t_sm := if has_sm f then sm r else nan;
            t_rain := match rain_col f with Some rain => precip r | _ => nan end;
            t_rain_def :=
              match rain_col f with Some rain_def => precip r | _ => nan end;
            t_twsa_z := tz;
            t_sm_z := sz;
            t_rain_z := rz;
            t_rain_def_z := nth i (rain_def_z_col f) nan;
            t_asi := asi;
            t_class := _classify asi |})
      (combine (rows f) (seq 0 (length (rows f)))).

(** Timestamps in ascending order, NaT last. *)
Definition date_leb (a b : option Z) : bool :=
  match a, b with
  | Some x, Some y => (x <=? y)%Z
  | Some _, None => true
  | None, Some _ => false
  | None, None => true
  end.

(** The order of [sort_values(["basin_id","date"])]. *)
Definition row_leb (a b : OutRow) : bool :=
  match String_as_OT.compare (t_basin_id a) (t_basin_id b) with
  | Lt => true
  | Eq => date_leb (t_date a) (t_date b)
  | Gt => false
  end.

(** [df_out]: the sorted frame restricted to [out_cols]. *)
Definition df_out (f : Frame) : list OutRow := sort row_leb (scored f).

(** [to_csv] writes NaN as the empty text and a float as its numeral; no
    [float_format] is given, so the numeral denotes the float itself. *)
Definition cell_of (v : value) : Cell :=
  match v with Some x => Num x | None => Empty end.

Definition csv_row (o : OutRow) : CsvRow :=
  {| c_basin_id := t_basin_id o;
     c_date := t_date o;
     c_twsa := cell_of (t_twsa o);
     c_sm := cell_of (t_sm o);
     c_rain := cell_of (t_rain o);
     c_rain_def := cell_of (t_rain_def o);
     c_twsa_z := cell_of (t_twsa_z o);
     c_sm_z := cell_of (t_sm_z o);
     c_rain_z := cell_of (t_rain_z o);
     c_rain_def_z := cell_of (t_rain_def_z o);
     c_asi := cell_of (t_asi o);
     c_class := t_class o |}.

Definition to_csv (t : list OutRow) : list CsvRow := map csv_row t.

(** *** Latest month with coverage *)

Fixpoint somes {A : Type} (l : list (option A)) : list A :=
  match l with
  | [] => []
  | Some x :: l' => x :: somes l'
  | None :: l' => somes l'
  end.

(** [max()] of an index or column of timestamps; NaT when it is empty. *)
Definition zmax (l : list Z) : option Z :=
  match l with
  | [] => None
  | x :: l' => Some (fold_right Z.max x l')
  end.

(** The group keys of [groupby("date_dt")], sorted; NaT is not a key. *)
Definition months (t : list OutRow) : list Z :=
  sort Z.leb (nodup Z.eq_dec (somes (map t_date t))).

(** [cov]: per month, the number of rows whose [asi] is not NaN. *)
Definition cov (t : list OutRow) : list (Z * nat) :=
  map (fun m =>
         (m, length (filter (fun o => notna (t_asi o))
                       (filter (fun o => match t_date o with
                                         | Some d => (d =? m)%Z
                                         | None => false
                                         end) t))))
      (months t).

Definition latest_dt (t : list OutRow) : option Z :=
  let covered := filter (fun p => (0 <? snd p)%nat) (cov t) in
  if existsb (fun p => (0 <? snd p)%nat) (cov t)
  then zmax (map fst covered)
  else zmax (somes (map t_date t)).

(** [latest]: the rows of the chosen month. *)
Definition latest (t : list OutRow) : list OutRow :=
  match latest_dt t with
  | Some m => filter (fun o => match t_date o with
                               | Some d => (d =? m)%Z
                               | None => false
                               end) t
  | None => []
  end.

(** *** The snapshot artifact *)

Definition _r (x : value) : value :=
  match x with
  | None => None
  | Some v => Some (round v 3)
  end.

(** [by_id.get(bid)]: in the dict comprehension a later row replaces an
    earlier one with the same key. *)
Definition by_id_get (rows : list OutRow) (bid : string) : option OutRow :=
  find (fun o => String.eqb (t_basin_id o) bid) (rev rows).

Definition feature_of (t : list OutRow) (g : Basin) : Feature :=
  match by_id_get (latest t) (bid_of g) with
  | Some row =>
      {| f_basin := g;
         p_name := or_else (g_name g) (Some (bid_of g));
         p_date := t_date row;
         p_twsa_z := _r (t_twsa_z row);
         p_sm_z := _r (t_sm_z row);
         p_rain_z := _r (t_rain_z row);
         p_rain_def_z := _r (t_rain_def_z row);
         p_asi := _r (t_asi row);
         p_class := t_class row |}
  | None =>
      {| f_basin := g;
         p_name := g_name g;
         p_date := latest_dt t;
         p_twsa_z := None;
         p_sm_z := None;
         p_rain_z := None;
         p_rain_def_z := None;
         p_asi := None;
         p_class := "no-data" |}
  end.

(** [main]: the table written to [asi_table.csv] and the features written
    to [asi_latest.geojson]. *)
Definition main (f : Frame) (gj : list Basin) : list CsvRow * list Feature :=
  let t := df_out f in
  (to_csv t, map (feature_of t) gj).

End Pipeline.

(** ** app/main.py *)

Module App.

(** The argument of [_r]: [None], a text read from the CSV table, or a
    JSON number. *)
Inductive Arg :=
| PyNone
| PyStr (c : Cell)
| PyNum (x : R).

(** A text is [None] when its stripped lower-case form is empty, [none] or
    [nan], and also when [float] rejects it; a numeral is rounded. *)
Definition _r (x : Arg) : value :=
  match x with
  | PyNone => None
  | PyStr Empty => None
  | PyStr (Text _) => None
  | PyStr (Num v) => Some (round v 3)
  | PyNum v => Some (round v 3)
  end.

Inductive HTTPException := mkHTTPException (status_code : Z) (detail : string).

Definition status_code (e : HTTPException) : Z :=
  match e with mkHTTPException c _ => c end.

Inductive result (A : Type) :=
| Ok (a : A)
| Raise (e : HTTPException).
Arguments Ok {A} a.
Arguments Raise {A} e.

(** *** /asi/history *)

Record HistoryRec := mkHistory {
  h_date : option Z;
  h_twsa_z : value;
  h_sm_z : value;
  h_rain_z : value;
  h_rain_def_z : value;
  h_asi : value;
  h_class : string
}.

Definition history_rec (row : CsvRow) : HistoryRec :=
  {| h_date := c_date row;
     h_twsa_z := _r (PyStr (c_twsa_z row));
     h_sm_z := _r (PyStr (c_sm_z row));
     h_rain_z := _r (PyStr (c_rain_z row));
     h_rain_def_z := _r (PyStr (c_rain_def_z row));
     h_asi := _r (PyStr (c_asi row));
     h_class := c_class row |}.

(** [table] is [None] when [asi_table.csv] does not exist. *)
Definition asi_history (table : option (list CsvRow)) (basin_id : string)
  : result (list HistoryRec) :=
  match table with
  | None =>
      Raise (mkHTTPException 404
               "asi_table.csv not found. Run scripts/compute_asi.py")
  | Some rdr =>
      let out :=
        map history_rec
            (filter (fun row => String.eqb (c_basin_id row) basin_id) rdr) in
      match out with
      | [] => Raise (mkHTTPException 404
                       ("No history for basin_id=" ++ basin_id))
      | _ => Ok out
      end
  end.

(** *** /asi/top10 *)

(** The white space removed by [str.strip] from an ASCII text. *)
Definition is_space (c : ascii) : bool :=
  let n := nat_of_ascii c in
  ((9 <=? n) && (n <=? 13) || (28 <=? n) && (n <=? 32))%nat.

Fixpoint lstrip (s : string) : string :=
  match s with
  | EmptyString => EmptyString
  | String c s' => if is_space c then lstrip s' else s
  end.

Fixpoint rstrip (s : string) : string :=
  match s with
  | EmptyString => EmptyString
  | String c s' =>
      match rstrip s' with
      | EmptyString => if is_space c then EmptyString else String c EmptyString
      | r => String c r
      end
  end.

Definition strip (s : string) : string := rstrip (lstrip s).

(** [s.split(",")] *)
Fixpoint split (sep : ascii) (s : string) : list string :=
  match s with
  | EmptyString => [EmptyString]
  | String c s' =>
      if Ascii.eqb c sep then EmptyString :: split sep s'
      else match split sep s' with
           | [] => [String c EmptyString]
           | h :: t => String c h :: t
           end
  end.

Definition nonempty (s : string) : bool :=
  match s with EmptyString => false | _ => true end.

(** [{c.strip() for c in classes.split(",") if c.strip()}]; the set is kept
    as the list of its members. *)
Definition wanted_of (classes : string) : list string :=
  map strip (filter (fun c => nonempty (strip c)) (split ","%char classes)).

Definition mem (s : string) (l : list string) : bool :=
  existsb (String.eqb s) l.

Record RankRow := mkRank {
  r_basin_id : option string;
  r_name : option string;
  r_asi : value;
  r_class : string;
  r_date : option Z
}.

Definition rank_row (f : Feature) (asi : R) : RankRow :=
  {| r_basin_id := or_else (g_basin_id (f_basin f)) (g_id (f_basin f));
     r_name := p_name f;
     r_asi := _r (PyNum asi);
     r_class := p_class f;
     r_date := p_date f |}.

(** The rows built by the loop over the features: one for every feature
    whose [asi] is a number. *)
Fixpoint numeric_rows (features : list Feature) : list RankRow :=
  match features with
  | [] => []
  | f :: fs =>
      match p_asi f with
      | Some asi => rank_row f asi :: numeric_rows fs
      | None => numeric_rows fs
      end
  end.

(** [a < b] on the sort keys; the key of a row is never [None]. *)
Definition key_lt (a b : value) : bool :=
  match a, b with
  | Some x, Some y => if Rlt_dec x y then true else false
  | _, _ => false
  end.

(** [a] stays before [b] unless the key of [b] is smaller. *)
Definition asi_leb (a b : RankRow) : bool := negb (key_lt (r_asi b) (r_asi a)).

(** [gj] is the snapshot returned by [geojson_for_date(date)] or
    [latest_geojson()]; omitted arguments take the defaults of the route. *)
Definition asi_top10 (limit : option Z) (classes : option string)
    (gj : list Feature) : list RankRow :=
  let limit := match limit with Some l => l | None => 10%Z end in
  let classes :=
    match classes with Some c => c | None => "alert,watch"%string end in
  let wanted := wanted_of classes in
  let rows := numeric_rows gj in
  let rows :=
    match wanted with
    | [] => rows
    | _ => filter (fun r => mem (r_class r) wanted) rows
    end in
  let rows := sort asi_leb rows in
  firstn (Z.to_nat (Z.max 0 limit)) rows.

(** *** geojson_for_date *)

Definition in_range (lo hi : nat) (c : ascii) : bool :=
  let n := nat_of_ascii c in ((lo <=? n) && (n <=? hi))%nat.

(** A decimal digit, and the digits 1 to 9. *)
Definition is_digit (c : ascii) : bool := in_range 48 57 c.
Definition is_digit19 (c : ascii) : bool := in_range 49 57 c.

Definition digit_val (c : ascii) : Z := (Z.of_nat (nat_of_ascii c) - 48)%Z.

(** [s[:n]] *)
Fixpoint take (n : nat) (s : string) : string :=
  match n, s with
  | S n', String c s' => String c (take n' s')
  | _, _ => EmptyString
  end.

(** The day field of [%d], [3[01]|[12]\d|0[1-9]|[1-9]| [1-9]]: the first
    alternative that matches a prefix gives the day and the text left over. *)
Definition match_day (s : string) : option (Z * string) :=
  match s with
  | String c1 s1 =>
      let two :=
        match s1 with
        | String c2 s2 =>
            if Ascii.eqb c1 "3" && in_range 48 49 c2
            then Some ((30 + digit_val c2)%Z, s2)
            else if in_range 49 50 c1 && is_digit c2
            then Some ((10 * digit_val c1 + digit_val c2)%Z, s2)
            else if Ascii.eqb c1 "0" && is_digit19 c2
            then Some (digit_val c2, s2)
            else None
        | EmptyString => None
        end in
      match two with
      | Some r => Some r
      | None =>
          if is_digit19 c1 then Some (digit_val c1, s1)
          else match s1 with
               | String c2 s2 =>
                   if Ascii.eqb c1 " " && is_digit19 c2
                   then Some (digit_val c2, s2)
                   else None
               | EmptyString => None
               end
      end
  | EmptyString => None
  end.

(** What follows the month field in [%Y-%m-%d]: a dash and the day. *)
Definition match_dash_day (s : string) : option (Z * string) :=
  match s with
  | String c s' => if Ascii.eqb c "-" then match_day s' else None
  | EmptyString => None
  end.

(** The month field of [%m], [1[0-2]|0[1-9]|[1-9]], followed by the rest of
    the pattern: an alternative is left for the next one when the rest does
    not match after it. *)
Definition match_month_day (s : string) : option (Z * Z * string) :=
  let alt (m : option (Z * string)) : option (Z * Z * string) :=
    match m with
    | Some (mo, rest) =>
        match match_dash_day rest with
        | Some (d, rem) => Some (mo, d, rem)
        | None => None
        end
    | None => None
    end in
  let alt1 :=
    match s with
    | String c1 (String c2 s2) =>
        if Ascii.eqb c1 "1" && in_range 48 50 c2
        then Some ((10 + digit_val c2)%Z, s2) else None
    | _ => None
    end in
  let alt2 :=
    match s with
    | String c1 (String c2 s2) =>
        if Ascii.eqb c1 "0" && is_digit19 c2
        then Some (digit_val c2, s2) else None
    | _ => None
    end in
  let alt3 :=
    match s with
    | String c1 s1 => if is_digit19 c1 then Some (digit_val c1, s1) else None
    | EmptyString => None
    end in
  match alt alt1 with
  | Some r => Some r
  | None =>
      match alt alt2 with
      | Some r => Some r
      | None => alt alt3
      end
  end.

Definition is_leap (y : Z) : bool :=
  ((y mod 4 =? 0) && (negb (y mod 100 =? 0) || (y mod 400 =? 0)))%Z.

Definition days_in_month (y m : Z) : Z :=
  if (m =? 2)%Z then (if is_leap y then 29 else 28)%Z
  else if ((m =? 4) || (m =? 6) || (m =? 9) || (m =? 11))%Z then 30%Z
  else 31%Z.

(** [datetime.strptime(s, "%Y-%m-%d")]: year, month and day, or [None] for
    ValueError (no match, text left over, or a date that does not exist). *)
Definition strptime (s : string) : option (Z * Z * Z) :=
  match s with
  | String y1 (String y2 (String y3 (String y4 (String dash rest)))) =>
      if is_digit y1 && is_digit y2 && is_digit y3 && is_digit y4
         && Ascii.eqb dash "-"
      then
        let y := (1000 * digit_val y1 + 100 * digit_val y2
                  + 10 * digit_val y3 + digit_val y4)%Z in
        match match_month_day rest with
        | Some (m, d, EmptyString) =>
            if ((1 <=? y) && (d <=? days_in_month y m))%Z
            then Some (y, m, d) else None
        | _ => None
        end
      else None
  | _ => None
  end.

(** The month of a date, as the table holds it. *)
Definition month_index (y m : Z) : Z := (12 * y + m - 1)%Z.

Definition on_month (target : Z) (r : CsvRow) : bool :=
  match c_date r with
  | Some d => (d =? target)%Z
  | None => false
  end.

(** [by_id.get(bid)] on lines of the table; the last line of a basin wins. *)
Definition by_id_get (rows : list CsvRow) (bid : string) : option CsvRow :=
  find (fun r => String.eqb (c_basin_id r) bid) (rev rows).

Definition feature_for (target : Z) (rows : list CsvRow) (g : Basin) : Feature :=
  match by_id_get rows (bid_of g) with
  | Some r =>
      {| f_basin := g;
         p_name := or_else (g_name g) (Some (bid_of g));
         p_date := Some target;
         p_twsa_z := _r (PyStr (c_twsa_z r));
         p_sm_z := _r (PyStr (c_sm_z r));
         p_rain_z := _r (PyStr (c_rain_z r));
         p_rain_def_z := _r (PyStr (c_rain_def_z r));
         p_asi := _r (PyStr (c_asi r));
         p_class := c_class r |}
  | None =>
      {| f_basin := g;
         p_name := g_name g;
         p_date := Some target;
         p_twsa_z := None;
         p_sm_z := None;
         p_rain_z := None;
         p_rain_def_z := None;
         p_asi := None;
         p_class := "no-data" |}
  end.

(** [table] is [None] when [asi_table.csv] does not exist; [basins] is the
    content of [basins.geojson]. *)
Definition geojson_for_date (table : option (list CsvRow)) (basins : list Basin)
    (date : string) : result (list Feature) :=
  match table with
  | None =>
      Raise (mkHTTPException 404
               "asi_table.csv not found. Run scripts/compute_asi.py")
  | Some rdr =>
      match strptime (take 7 date ++ "-01") with
      | None => Raise (mkHTTPException 400 "date must be YYYY-MM or YYYY-MM-01")
      | Some (y, m, _) =>
          let target := month_index y m in
          let rows := filter (on_month target) rdr in
          Ok (map (feature_for target rows) basins)
      end
  end.

(** *** latest_geojson *)

(** What reading [asi_latest.geojson] gives. *)
Inductive Prebuilt :=
| Missing
| Unreadable
| Loaded (gj : list Feature).

Definition no_data_feature (g : Basin) : Feature :=
  {| f_basin := g;
     p_name := g_name g;
     p_date := None;
     p_twsa_z := None;
     p_sm_z := None;
     p_rain_z := None;
     p_rain_def_z := None;
     p_asi := None;
     p_class := "no-data" |}.

Definition latest_geojson (asi_latest : Prebuilt) (basins : list Basin)
  : list Feature :=
  match asi_latest with
  | Loaded gj => gj
  | Missing | Unreadable => map no_data_feature basins
  end.

(** *** /asi/summary *)

(** [Counter(classes)]: the classes in the order they first occur, each with
    its number of occurrences. *)
Fixpoint bump (c : string) (acc : list (string * nat)) : list (string * nat) :=
  match acc with
  | [] => [(c, 1%nat)]
  | (k, n) :: acc' =>
      if String.eqb k c then (k, S n) :: acc' else (k, n) :: bump c acc'
  end.

Definition Counter (l : list string) : list (string * nat) :=
  fold_left (fun acc c => bump c acc) l [].

(** [min(asis) if asis else None] and [max(asis) if asis else None] *)
Definition min_of (l : list R) : value :=
  match l with
  | [] => None
  | x :: l' => Some (fold_left Rmin l' x)
  end.

Definition max_of (l : list R) : value :=
  match l with
  | [] => None
  | x :: l' => Some (fold_left Rmax l' x)
  end.

(** The first date that is not missing, or [None]. *)
Fixpoint first_date (gj : list Feature) : option Z :=
  match gj with
  | [] => None
  | f :: fs =>
      match p_date f with
      | Some d => Some d
      | None => first_date fs
      end
  end.

Record Summary := mkSummary {
  as_of : option Z;
  counts : list (string * nat);
  min_asi : value;
  max_asi : value
}.

(** [gj] is the snapshot, as for [asi_top10]. *)
Definition asi_summary (gj : list Feature) : Summary :=
  let classes := map p_class gj in
  let asis := dropna (map p_asi gj) in
  {| as_of := first_date gj;
     counts := Counter classes;
     min_asi := min_of asis;
     max_asi := max_of asis |}.

(** *** /asi/latest_date and /asi/date_range *)

(** One step of the loops: keep the later, or the earlier, of two dates. *)
Definition later (latest : option Z) (d : Z) : option Z :=
  match latest with
  | None => Some d
  | Some l => if (l <? d)%Z then Some d else Some l
  end.

Definition earlier (dmin : option Z) (d : Z) : option Z :=
  match dmin with
  | None => Some d
  | Some l => if (d <? l)%Z then Some d else Some l
  end.

Definition scan (step : option Z -> Z -> option Z) (rdr : list CsvRow)
  : option Z :=
  fold_left (fun acc r => match c_date r with
                          | Some d => step acc d
                          | None => acc
                          end) rdr None.

Definition asi_latest_date (table : option (list CsvRow)) : result (option Z) :=
  match table with
  | None =>
      Raise (mkHTTPException 404
               "asi_table.csv not found. Run scripts/compute_asi.py")
  | Some rdr => Ok (scan later rdr)
  end.

Definition asi_date_range (table : option (list CsvRow))
  : result (option Z * option Z) :=
  match table with
  | None =>
      Raise (mkHTTPException 404
               "asi_table.csv not found. Run scripts/compute_asi.py")
  | Some rdr => Ok (scan earlier rdr, scan later rdr)
  end.

End App.

(** ** Notions used to state the properties *)

Import Pipeline.

(** The non-missing observations of signal [col] in the history of basin [b]. *)
Definition history (df : list Row) (col : Row -> value) (b : string) : list R :=
  dropna (group df col b).

(** The score [z] gives to one entry [x] of the group [s]. *)
Definition z1 (s : Series) (x : value) : value :=
  if gt0 (std0 s) then fdiv (fsub x (mean s)) (std0 s) else nan.

(** The score of row [r] of the frame [df] for the signal [col]. *)
Definition z_row (df : list Row) (col : Row -> value) (r : Row) : value :=
  z1 (group df col (basin_id r)) (col r).

(** The rain scores of row [r], by the column the source supplied. *)
Definition rain_z_row (f : Frame) (r : Row) : value :=
  match rain_col f with
  | Some rain => z_row (rows f) precip r
  | Some rain_def => fneg (z_row (rows f) precip r)
  | None => nan
  end.

Definition rain_def_z_row (f : Frame) (r : Row) : value :=
  match rain_col f with
  | Some rain => fneg (z_row (rows f) precip r)
  | Some rain_def => z_row (rows f) precip r
  | None => nan
  end.

(** The output row computed from row [r] of the frame. *)
Definition out_row (f : Frame) (r : Row) : OutRow :=
  let tz := if has_twsa f then z_row (rows f) twsa r else nan in
  let sz := if has_sm f then z_row (rows f) sm r else nan in
  let rz := rain_z_row f r in
  {| t_basin_id := basin_id r;
     t_date := date r;
     t_twsa := if has_twsa f then twsa r else nan;
     t_sm := if has_sm f then sm r else nan;
     t_rain := match rain_col f with Some rain => precip r | _ => nan end;
     t_rain_def := match rain_col f with Some rain_def => precip r | _ => nan end;
     t_twsa_z := tz;
     t_sm_z := sz;
     t_rain_z := rz;
     t_rain_def_z := rain_def_z_row f r;
     t_asi := asi_of [tz; sz; rz];
     t_class := _classify (asi_of [tz; sz; rz]) |}.

(** Weighted average of the available scores: the sum of weight times score
    over the non-missing scores, divided by the sum of their weights;
    missing when no score is available. *)
Definition weighted_average (terms : list (R * value)) : value :=
  let available := filter (fun t => notna (snd t)) terms in
  match available with
  | [] => nan
  | _ => Some (Rsum (map (fun t => fst t * fillna 0 (snd t)) available)
               / Rsum (map fst available))
  end.

(** The weight each score of a row effectively carries in [num / den]. *)
Definition effective_weights (comp : list value) : list R :=
  let den := dot (map b2r (map notna comp)) w in
  map (fun p => b2r (notna (fst p)) * snd p / den) (combine comp w).

(** Severity of a class: alert over watch over normal. *)
Definition severity (c : string) : nat :=
  if String.eqb c "alert" then 2
  else if String.eqb c "watch" then 1
  else 0.

(** Month [m] is present in the table. *)
Definition present (t : list OutRow) (m : Z) : Prop :=
  exists o, In o t /\ t_date o = Some m.

(** Month [m] has at least one basin with a non-missing composite score. *)
Definition covered (t : list OutRow) (m : Z) : Prop :=
  exists o, In o t /\ t_date o = Some m /\ notna (t_asi o) = true.

(** [x] has at most 3 decimal places. *)
Definition rounded3 (x : R) : Prop := exists k : Z, x = IZR k / 1000.

(** The numeric cells of a line of the table. *)
Definition numeric_cells (c : CsvRow) : list Cell :=
  [c_twsa c; c_sm c; c_rain c; c_rain_def c;
   c_twsa_z c; c_sm_z c; c_rain_z c; c_rain_def_z c; c_asi c].

(** The numeric values of a row of the frame, in the same order. *)
Definition numeric_values (o : OutRow) : list value :=
  [t_twsa o; t_sm o; t_rain o; t_rain_def o;
   t_twsa_z o; t_sm_z o; t_rain_z o; t_rain_def_z o; t_asi o].

(** The numeric properties of a feature of the snapshot. *)
Definition numeric_props (ft : Feature) : list value :=
  [p_twsa_z ft; p_sm_z ft; p_rain_z ft; p_rain_def_z ft; p_asi ft].

(** The lines of the table for basin [b]; none when the table is absent. *)
Definition rows_of (table : option (list CsvRow)) (b : string) : list CsvRow :=
  match table with
  | Some t => filter (fun row => String.eqb (c_basin_id row) b) t
  | None => []
  end.


(** Ascending order of two ranking rows by their composite score. *)
Definition asi_le (a b : App.RankRow) : Prop :=
  match App.r_asi a, App.r_asi b with
  | Some x, Some y => x <= y
  | _, _ => False
  end.

(** The sort key of a ranking row is a number. *)
Definition has_key (r : App.RankRow) : Prop := exists x, App.r_asi r = Some x.

(** The character of a decimal digit. *)
Definition digit_char (d : Z) : ascii := ascii_of_nat (48 + Z.to_nat d).

(** The text [YYYY-MM] of a month, zero padded. *)
Definition fmt_ym (y m : Z) : string :=
  String (digit_char (y / 1000))
    (String (digit_char (y / 100 mod 10))
       (String (digit_char (y / 10 mod 10))
          (String (digit_char (y mod 10))
             (String "-"
                (String (digit_char (m / 10))
                   (String (digit_char (m mod 10)) EmptyString)))))).

(** The features [geojson_for_date] builds for the month [target]. *)
Definition features_at (t : list CsvRow) (basins : list Basin) (target : Z)
  : list Feature :=
  map (App.feature_for target (filter (App.on_month target) t)) basins.

(** The count recorded for class [c], 0 when the class is not a key. *)
Fixpoint count_of (c : string) (cs : list (string * nat)) : nat :=
  match cs with
  | [] => 0
  | (k, n) :: cs' => if String.eqb k c then n else count_of c cs'
  end.

(** The number of features of class [c]. *)
Definition features_of_class (c : string) (gj : list Feature) : nat :=
  length (filter (fun ft => String.eqb (p_class ft) c) gj).

(** One iteration of the loops over the lines of the table. *)
Definition scan_step (step : option Z -> Z -> option Z) (acc : option Z)
    (r : CsvRow) : option Z :=
  match c_date r with
  | Some d => step acc d
  | None => acc
  end.

(** The history record of a table row, with the rounding of the pipeline. *)
Definition history_of_row (o : OutRow) : App.HistoryRec :=
  {| App.h_date := t_date o;
     App.h_twsa_z := Pipeline._r (t_twsa_z o);
     App.h_sm_z := Pipeline._r (t_sm_z o);
     App.h_rain_z := Pipeline._r (t_rain_z o);
     App.h_rain_def_z := Pipeline._r (t_rain_def_z o);
     App.h_asi := Pipeline._r (t_asi o);
     App.h_class := t_class o |}.

(** The text [YYYY-M] of a month before October, without the leading zero. *)
Definition fmt_ym_short (y m : Z) : string :=
  String (digit_char (y / 1000))
    (String (digit_char (y / 100 mod 10))
       (String (digit_char (y / 10 mod 10))
          (String (digit_char (y mod 10))
             (String "-" (String (digit_char m) EmptyString))))).

(** Every character of [s] is a comma or white space. *)
Fixpoint blank (s : string) : bool :=
  match s with
  | EmptyString => true
  | String c s' => (Ascii.eqb c "," || App.is_space c) && blank s'
  end.

(** Every character of [s] is white space. *)
Fixpoint spaces (s : string) : bool :=
  match s with
  | EmptyString => true
  | String c s' => App.is_space c && spaces s'
  end.

(** A value rounded to 3 decimal places; a missing value stays missing. *)
Definition rounded (v : value) : value := option_map (fun x => round x 3) v.

(** A cell of the table as a response shows it: null when the cell is empty
    or is not a number, its number rounded to 3 decimal places otherwise. *)
Definition cell_rounded (c : Cell) : value :=
  match c with
  | Num x => Some (round x 3)
  | Empty | Text _ => None
  end.

(** The five standard scores and index of a table row, of a line of the
    table and of a history record, in the order twsa_z, sm_z, rain_z,
    rain_def_z, asi. *)
Definition scores (o : OutRow) : list value :=
  [t_twsa_z o; t_sm_z o; t_rain_z o; t_rain_def_z o; t_asi o].

Definition score_cells (c : CsvRow) : list Cell :=
  [c_twsa_z c; c_sm_z c; c_rain_z c; c_rain_def_z c; c_asi c].

Definition history_scores (h : App.HistoryRec) : list value :=
  [App.h_twsa_z h; App.h_sm_z h; App.h_rain_z h; App.h_rain_def_z h; App.h_asi h].

(** The history record [h] shows the line [row] of the table: its date, its
    class and its derived scores, each null or rounded to 3 decimal places. *)
Definition shows_line (row : CsvRow) (h : App.HistoryRec) : Prop :=
  App.h_date h = c_date row /\
  App.h_class h = c_class row /\
  history_scores h = map cell_rounded (score_cells row).

(** The features of a snapshot that have a numeric composite score, each
    with that score, in the order of the snapshot. *)
Fixpoint numeric_features (gj : list Feature) : list (Feature * R) :=
  match gj with
  | [] => []
  | ft :: gj' =>
      match p_asi ft with
      | Some x => (ft, x) :: numeric_features gj'
      | None => numeric_features gj'
      end
  end.

(** The ranking row [r] shows the feature [fst a], whose composite score is
    [snd a]: its basin id (or, failing that, its feature id), name, class and
    date, and the score rounded to 3 decimal places. *)
Definition shows_feature (a : Feature * R) (r : App.RankRow) : Prop :=
  App.r_basin_id r = or_else (g_basin_id (f_basin (fst a))) (g_id (f_basin (fst a))) /\
  App.r_name r = p_name (fst a) /\
  App.r_asi r = Some (round (snd a) 3) /\
  App.r_class r = p_class (fst a) /\
  App.r_date r = p_date (fst a).

(** ** Sample data *)

Definition B1 : string := "B1".
Definition B2 : string := "B2".

(** Months 2021-06 and 2021-07. *)
Definition m2021_06 : Z := 24257.
Definition m2021_07 : Z := 24258.

(** Basin B1 observed twice, basin B2 once. *)
Definition ex_df : list Row :=
  [ mkRow B1 (Some m2021_06) (Some 0) None (Some 2);
    mkRow B1 (Some m2021_07) (Some 2) None (Some 0);
    mkRow B2 (Some m2021_07) (Some 5) None None ].

(** The same frame with another storage value for basin B2. *)
Definition ex_df' : list Row :=
  [ mkRow B1 (Some m2021_06) (Some 0) None (Some 2);
    mkRow B1 (Some m2021_07) (Some 2) None (Some 0);
    mkRow B2 (Some m2021_07) (Some 7) None None ].

(** A run where the storage and precipitation sources are present, the
    precipitation source holding rainfall amounts. *)
Definition ex_frame : Frame := mkFrame ex_df true false (Some rain).

Definition ex_row1 : Row := mkRow B1 (Some m2021_06) (Some 0) None (Some 2).

(** The table row of basin B1 for 2021-06 in that run. *)
Definition ex_out1 : OutRow :=
  {| t_basin_id := B1;
     t_date := Some m2021_06;
     t_twsa := Some 0;
     t_sm := nan;
     t_rain := Some 2;
     t_rain_def := nan;
     t_twsa_z := Some (-1);
     t_sm_z := nan;
     t_rain_z := Some 1;
     t_rain_def_z := Some (-1);
     t_asi := Some (-1 / 3);
     t_class := "normal" |}.

(** A table with two numeric composite values in 2021-06 and only a missing
    one in 2021-07. *)
Definition ex_table : list OutRow :=
  [ mkOut B1 (Some m2021_06) nan nan nan nan nan nan nan nan (Some (-1.2)) "alert";
    mkOut B1 (Some m2021_07) nan nan nan nan nan nan nan nan nan "no-data";
    mkOut B2 (Some m2021_06) nan nan nan nan nan nan nan nan (Some (-0.3)) "normal" ].

(** The geometry collection of the two basins. *)
Definition ex_basins : list Basin :=
  [ mkBasin None (Some B1) (Some "Upper"%string); mkBasin None (Some B2) None ].

(** A table where every composite score of basin B1 is missing. *)
Definition ex_csv : list CsvRow :=
  [ mkCsv B1 (Some m2021_06) (Num 1) Empty Empty Empty Empty Empty Empty Empty
      Empty "no-data";
    mkCsv B1 (Some m2021_07) (Num 1) Empty Empty Empty Empty Empty Empty Empty
      Empty "no-data" ].

(** A snapshot with a normal, an alert and a no-data basin. *)
Definition ex_normal : Feature :=
  mkFeature (mkBasin None (Some "B1"%string) None) (Some "B1"%string)
    (Some m2021_07) None None None None (Some 0.3) "normal".

Definition ex_alert : Feature :=
  mkFeature (mkBasin None (Some "B2"%string) None) (Some "B2"%string)
    (Some m2021_07) None None None None (Some (-1.2)) "alert".

Definition ex_nodata : Feature :=
  mkFeature (mkBasin None (Some "B3"%string) None) None
    (Some m2021_07) None None None None None "no-data".

Definition ex_gj : list Feature := [ex_normal; ex_alert; ex_nodata].

Definition ex_rank_normal : App.RankRow :=
  App.mkRank (Some "B1"%string) (Some "B1"%string) (Some 0.3) "normal"
    (Some m2021_07).

Definition ex_rank_alert : App.RankRow :=
  App.mkRank (Some "B2"%string) (Some "B2"%string) (Some (-1.2)) "alert"
    (Some m2021_07).

(** A constant series: three observations of 0.1 (the double nearest to it). *)
Definition ex_constant : list PrimFloat.float :=
  [0x1.999999999999ap-4; 0x1.999999999999ap-4; 0x1.999999999999ap-4]%float.

(** * Properties *)

(** ** Lists and sorting *)

Section SortFacts.

Context {A : Type} (leb : A -> A -> bool) (P : A -> Prop).

Lemma insert_perm (x : A) (l : list A) : Permutation (insert leb x l) (x :: l).
Proof.
  induction l as [|y l IH]; simpl; [reflexivity|].
  destruct (leb x y); [reflexivity|].
  rewrite IH. apply perm_swap.
Qed.

Lemma sort_perm (l : list A) : Permutation (sort leb l) l.
Proof.
  induction l as [|x l IH]; simpl; [constructor|].
  rewrite insert_perm. now constructor.
Qed.

Lemma sort_In (l : list A) (x : A) : In x (sort leb l) <-> In x l.
Proof.
  split; apply Permutation_in; [|symmetry]; apply sort_perm.
Qed.

Hypothesis leb_total : forall a b, P a -> P b -> leb a b = true \/ leb b a = true.
Hypothesis leb_trans :
  forall a b c, P a -> P b -> P c ->
    leb a b = true -> leb b c = true -> leb a c = true.

Let le (a b : A) : Prop := leb a b = true.

Lemma insert_sorted (x : A) (l : list A) :
  P x -> Forall P l -> StronglySorted le l -> StronglySorted le (insert leb x l).
Proof.
  intros Px Pl Hs. induction Hs as [|y l Hs IH Hy]; simpl.
  - repeat constructor.
  - inversion Pl as [|? ? Py Pl']; subst.
    destruct (leb x y) eqn:E.
    + constructor; [now constructor|].
      constructor; [exact E|].
      rewrite Forall_forall in *. intros c Hc.
      apply (leb_trans x y c); auto. now apply Hy.
    + constructor; [now apply IH|].
      rewrite Forall_forall. intros c Hc.
      apply (Permutation_in _ (insert_perm x l)) in Hc.
      destruct Hc as [<-|Hc].
      * destruct (leb_total x y Px Py) as [H|H]; [congruence|exact H].
      * rewrite Forall_forall in Hy. now apply Hy.
Qed.

Lemma sort_sorted (l : list A) : Forall P l -> StronglySorted le (sort leb l).
Proof.
  induction l as [|x l IH]; simpl; intros Pl; [constructor|].
  inversion Pl as [|? ? Px Pl']; subst.
  apply insert_sorted; [exact Px| |now apply IH].
  apply Forall_forall. intros c Hc. apply (proj1 (sort_In _ _)) in Hc.
  revert c Hc. now apply Forall_forall.
Qed.

End SortFacts.


Lemma StronglySorted_map {A B : Type} (R : A -> A -> Prop) (S : B -> B -> Prop)
    (g : A -> B) (l : list A) :
  (forall a b, In a l -> In b l -> R a b -> S (g a) (g b)) ->
  StronglySorted R l -> StronglySorted S (map g l).
Proof.
  intros H Hs. induction Hs as [|x l Hs IH Hx]; simpl; [constructor|].
  constructor.
  - apply IH. intros a b Ha Hb. apply H; now right.
  - rewrite Forall_forall in *. intros y Hy.
    apply in_map_iff in Hy. destruct Hy as (a & <- & Ha).
    apply H; [now left|now right|now apply Hx].
Qed.

Lemma StronglySorted_firstn {A : Type} (R : A -> A -> Prop) (n : nat) (l : list A) :
  StronglySorted R l -> StronglySorted R (firstn n l).
Proof.
  intros Hs. revert n. induction Hs as [|x l Hs IH Hx]; intros [|n]; simpl;
    try constructor.
  - apply IH.
  - rewrite Forall_forall in *. intros y Hy. apply Hx.
    rewrite <- (firstn_skipn n l). apply in_or_app. now left.
Qed.

(** ** Standard scores by basin *)

Lemma nth_error_filter_rank {A : Type} (p : A -> bool) (l : list A) (i : nat) (r : A) :
  nth_error l i = Some r -> p r = true ->
  nth_error (filter p l) (length (filter p (firstn i l))) = Some r.
Proof.
  revert i. induction l as [|y l IH]; intros [|i] H Hp; simpl in *; try discriminate.
  - injection H as ->. now rewrite Hp.
  - destruct (p y); simpl; now apply IH.
Qed.

Lemma z_pointwise (s : Series) : z s = map (z1 s) s.
Proof.
  unfold z, z1. destruct (gt0 (std0 s)); reflexivity.
Qed.

Lemma nth_transform (df : list Row) (col : Row -> value) (f : Series -> Series)
    (i : nat) (r : Row) :
  nth_error df i = Some r ->
  nth i (transform df col f) nan =
  nth (rank df (basin_id r) i) (f (group df col (basin_id r))) nan.
Proof.
  intros H. unfold transform.
  assert (Hi : (i < length df)%nat) by (apply nth_error_Some; congruence).
  apply nth_error_nth.
  rewrite nth_error_map, nth_error_seq.
  apply Nat.ltb_lt in Hi. rewrite Hi. simpl. now rewrite H.
Qed.

Lemma nth_z_by_basin (df : list Row) (col : Row -> value) (i : nat) (r : Row) :
  nth_error df i = Some r ->
  nth i (_z_by_basin df col) nan = z_row df col r.
Proof.
  intros H. unfold _z_by_basin. rewrite (nth_transform _ _ _ _ _ H).
  rewrite z_pointwise. unfold z_row, group at 2, rank.
  rewrite map_map.
  apply nth_error_nth.
  rewrite nth_error_map.
  rewrite (nth_error_filter_rank _ _ _ r H); [reflexivity|].
  unfold same_basin. apply String.eqb_refl.
Qed.

Lemma Rsum_sq_nonneg (m : R) (l : list R) :
  0 <= Rsum (map (fun x => (x - m) * (x - m)) l).
Proof.
  unfold Rsum. induction l as [|x l IH]; simpl; [lra|].
  pose proof (Rle_0_sqr (x - m)) as Hsq. unfold Rsqr in Hsq. lra.
Qed.

Lemma pvar_nonneg (xs : list R) : xs <> [] -> 0 <= pvar xs.
Proof.
  intros H. unfold pvar.
  apply Rmult_le_pos; [apply Rsum_sq_nonneg|].
  apply Rlt_le, Rinv_0_lt_compat, lt_0_INR.
  destruct xs; [congruence|simpl; lia].
Qed.

Lemma pvar_single (x : R) : pvar [x] = 0.
Proof.
  unfold pvar, avg. simpl. field.
Qed.

Lemma gt0_true (x : R) : 0 < x -> gt0 (Some x) = true.
Proof.
  intros H. unfold gt0. destruct (Rlt_dec 0 x); [reflexivity|contradiction].
Qed.

Lemma gt0_false (x : R) : ~ 0 < x -> gt0 (Some x) = false.
Proof.
  intros H. unfold gt0. destruct (Rlt_dec 0 x); [contradiction|reflexivity].
Qed.

(** The score of an entry, by the statistics of the non-missing entries. *)
Lemma z1_defined (s : Series) (x : value) :
  (2 <= length (dropna s))%nat -> pvar (dropna s) <> 0 ->
  z1 s x =
  option_map (fun v => (v - avg (dropna s)) / sqrt (pvar (dropna s))) x.
Proof.
  intros Hn Hv. unfold z1, std0, mean.
  destruct (dropna s) as [|y ys] eqn:E; [simpl in Hn; lia|].
  assert (Hpos : 0 < sqrt (pvar (y :: ys))).
  { apply sqrt_lt_R0.
    assert (0 <= pvar (y :: ys)) by (apply pvar_nonneg; discriminate). lra. }
  rewrite (gt0_true _ Hpos). now destruct x.
Qed.

Lemma z1_missing (s : Series) (x : value) :
  (length (dropna s) < 2)%nat \/ pvar (dropna s) = 0 -> z1 s x = nan.
Proof.
  intros H. unfold z1, std0.
  destruct (dropna s) as [|y ys] eqn:E; [reflexivity|].
  assert (Hz : pvar (y :: ys) = 0).
  { destruct H as [H|H]; [|exact H].
    destruct ys; [apply pvar_single|simpl in H; lia]. }
  rewrite Hz, sqrt_0, gt0_false by lra. reflexivity.
Qed.

(** A group only sees the rows of its own basin. *)
Lemma group_local (df df' : list Row) (col : Row -> value) (b : string) :
  map basin_id df' = map basin_id df ->
  (forall j a a', nth_error df j = Some a -> nth_error df' j = Some a' ->
                  basin_id a = b -> col a' = col a) ->
  group df' col b = group df col b.
Proof.
  unfold group. revert df'.
  induction df as [|a df IH]; intros [|a' df'] Hb Hc; simpl in *; try discriminate;
    [reflexivity|].
  injection Hb as Ha Hb.
  assert (Hsb : same_basin b a' = same_basin b a)
    by (unfold same_basin; now rewrite Ha).
  assert (Htl : map col (filter (same_basin b) df') = map col (filter (same_basin b) df)).
  { apply IH; [exact Hb|]. intros j x x' Hx Hx'. apply (Hc (S j)); assumption. }
  rewrite Hsb. destruct (same_basin b a) eqn:E; simpl; [|exact Htl].
  rewrite Htl. f_equal. apply (Hc 0%nat); try reflexivity.
  now apply String.eqb_eq.
Qed.

(** In exact arithmetic: in a frame [df], take the row [r] at index [i] and a
    signal [col], and let [xs] be the non-missing observations of that signal in the history of
    the basin of [r].  If [xs] has at least two entries and a non-zero
    population variance, the standard score of the row is
    (value - mean) / population standard deviation, with the mean and the
    deviation of [xs] (and it is missing where the value is missing);
    otherwise the score is missing, hence never 0.  The score is the same in
    every frame [df'] that has the same basins row by row and the same values
    of the signal on the rows of this basin, whatever the other basins hold. *)
Theorem z_by_basin_own_history (df df' : list Row) (col : Row -> value)
    (i : nat) (r : Row) :
  nth_error df i = Some r ->
  map basin_id df' = map basin_id df ->
  (forall j a a', nth_error df j = Some a -> nth_error df' j = Some a' ->
                  basin_id a = basin_id r -> col a' = col a) ->
  let xs := history df col (basin_id r) in
  let zi := nth i (_z_by_basin df col) nan in
  ((2 <= length xs)%nat /\ pvar xs <> 0 ->
   zi = option_map (fun x => (x - avg xs) / sqrt (pvar xs)) (col r)) /\
  ((length xs < 2)%nat \/ pvar xs = 0 -> zi = nan /\ zi <> Some 0) /\
  nth i (_z_by_basin df' col) nan = zi.
Proof.
  intros Hr Hb Hc xs zi. subst xs zi.
  rewrite (nth_z_by_basin _ _ _ _ Hr). unfold z_row, history.
  split; [|split].
  - intros [Hn Hv]. now apply z1_defined.
  - intros H. rewrite (z1_missing _ _ H). split; [reflexivity|discriminate].
  - destruct (nth_error df' i) as [r'|] eqn:Hr'.
    + rewrite (nth_z_by_basin _ _ _ _ Hr'). unfold z_row.
      assert (Hbi : basin_id r' = basin_id r).
      { apply (map_nth_error basin_id) in Hr, Hr'.
        rewrite Hb in Hr'. congruence. }
      rewrite Hbi, (group_local df df' col (basin_id r) Hb Hc).
      now rewrite (Hc i r r' Hr Hr').
    + exfalso. apply nth_error_None in Hr'.
      assert (Hl : length df' = length df)
        by (rewrite <- (length_map basin_id df'), Hb; apply length_map).
      assert ((i < length df)%nat) by (apply nth_error_Some; congruence). lia.
Qed.

Lemma pvar_0_2 : pvar [0; 2] = 1.
Proof.
  unfold pvar, avg, Rsum. simpl. field.
Qed.

Lemma avg_0_2 : avg [0; 2] = 1.
Proof.
  unfold avg, Rsum. simpl. field.
Qed.

Lemma z_by_basin_own_history_witness :
  nth 0 (_z_by_basin ex_df twsa) nan = Some (-1) /\
  nth 0 (_z_by_basin ex_df' twsa) nan = nth 0 (_z_by_basin ex_df twsa) nan.
Proof.
  assert (Hc : forall j a a', nth_error ex_df j = Some a ->
                 nth_error ex_df' j = Some a' ->
                 basin_id a = B1 -> twsa a' = twsa a).
  { intros [|[|[|j]]] a a' Ha Ha' Hb; simpl in Ha, Ha';
      try (injection Ha as <-; injection Ha' as <-; try reflexivity).
    - discriminate Hb.
    - destruct j; discriminate. }
  destruct (z_by_basin_own_history ex_df ex_df' twsa 0
              (mkRow B1 (Some m2021_06) (Some 0) None (Some 2))
              eq_refl eq_refl Hc) as (H1 & _ & H3).
  split; [|exact H3].
  rewrite H1.
  - change (history ex_df twsa _) with [0; 2].
    rewrite pvar_0_2, avg_0_2, sqrt_1. simpl. f_equal. field.
  - change (history ex_df twsa _) with [0; 2].
    rewrite pvar_0_2. split; [simpl; lia|lra].
Defined.

Lemma pvar_constant (x : R) : pvar [x; x; x] = 0.
Proof.
  unfold pvar, avg, Rsum. simpl. field.
Qed.

(** C2 (code defect). For a basin whose three observations of a signal are
    all 0.1 the population variance is zero, so every score should be
    missing, and in exact arithmetic [z] does give missing scores for every
    constant series.  On doubles the mean of the series is
    0.10000000000000002, the standard deviation is 2^-56 (about 1.39e-17),
    the guard [sd > 0] holds, and every observation is scored -1. *)
Theorem z_constant_series_scored :
  F64.mean ex_constant = 0x1.999999999999bp-4%float /\
  F64.std0 ex_constant = 0x1p-56%float /\
  (0 <? F64.std0 ex_constant)%float = true /\
  F64.z ex_constant = [-1; -1; -1]%float /\
  (forall x : R, Pipeline.z [Some x; Some x; Some x] = [nan; nan; nan]).
Proof.
  split; [vm_compute; reflexivity|].
  split; [vm_compute; reflexivity|].
  split; [vm_compute; reflexivity|].
  split; [vm_compute; reflexivity|].
  intros x. rewrite z_pointwise. cbn [map].
  rewrite !z1_missing; [reflexivity|right; apply pvar_constant..].
Qed.

(** ** The rows of the table *)

Lemma map_combine_seq {A B : Type} (F : A * nat -> B) (G : A -> B) (l : list A) (k : nat) :
  (forall j r, nth_error l j = Some r -> F (r, (k + j)%nat) = G r) ->
  map F (combine l (seq k (length l))) = map G l.
Proof.
  revert k. induction l as [|a l IH]; intros k H; simpl; [reflexivity|].
  f_equal.
  - rewrite <- (Nat.add_0_r k) at 1. now apply H.
  - apply IH. intros j r Hj.
    replace (S k + j)%nat with (k + S j)%nat by lia. now apply H.
Qed.

Lemma nth_nan_col (df : list Row) (i : nat) : nth i (nan_col df) nan = nan.
Proof.
  unfold nan_col. revert i. induction df as [|a df IH]; intros [|i]; simpl; auto.
Qed.

Lemma nth_map_fneg (s : Series) (i : nat) :
  nth i (map fneg s) nan = fneg (nth i s nan).
Proof.
  change nan with (fneg nan) at 1. apply map_nth.
Qed.

Lemma scored_pointwise (f : Frame) : scored f = map (out_row f) (rows f).
Proof.
  unfold scored. apply map_combine_seq. intros j r Hj. simpl.
  assert (Ht : nth j (twsa_z_col f) nan
               = if has_twsa f then z_row (rows f) twsa r else nan).
  { unfold twsa_z_col. destruct (has_twsa f);
      [now apply nth_z_by_basin|apply nth_nan_col]. }
  assert (Hs : nth j (sm_z_col f) nan
               = if has_sm f then z_row (rows f) sm r else nan).
  { unfold sm_z_col. destruct (has_sm f);
      [now apply nth_z_by_basin|apply nth_nan_col]. }
  assert (Hr : nth j (rain_z_col f) nan = rain_z_row f r).
  { unfold rain_z_col, rain_z_row. destruct (rain_col f) as [[|]|].
    - now apply nth_z_by_basin.
    - rewrite nth_map_fneg. f_equal. now apply nth_z_by_basin.
    - apply nth_nan_col. }
  assert (Hd : nth j (rain_def_z_col f) nan = rain_def_z_row f r).
  { unfold rain_def_z_col, rain_def_z_row. destruct (rain_col f) as [[|]|].
    - rewrite nth_map_fneg. f_equal. now apply nth_z_by_basin.
    - now apply nth_z_by_basin.
    - apply nth_nan_col. }
  unfold out_row. rewrite Ht, Hs, Hr, Hd. reflexivity.
Qed.

Lemma df_out_In (f : Frame) (o : OutRow) :
  In o (df_out f) <-> exists r, In r (rows f) /\ o = out_row f r.
Proof.
  unfold df_out. rewrite sort_In, scored_pointwise, in_map_iff.
  split; intros (r & H1 & H2); exists r; auto.
Qed.

Lemma fneg_involutive (v : value) : fneg (fneg v) = v.
Proof.
  destruct v; simpl; [|reflexivity]. now rewrite Ropp_involutive.
Qed.

(** ** Classification *)

Lemma classify_alert (c : R) : c <= -1.0 -> _classify (Some c) = "alert"%string.
Proof.
  intros H. unfold _classify, ALERT_T.
  destruct (Rle_dec c (-1.0)); [reflexivity|contradiction].
Qed.

Lemma classify_watch (c : R) :
  -1.0 < c <= -0.5 -> _classify (Some c) = "watch"%string.
Proof.
  intros [H1 H2]. unfold _classify, ALERT_T, WATCH_T.
  destruct (Rle_dec c (-1.0)); [lra|].
  destruct (Rle_dec c (-0.5)); [reflexivity|contradiction].
Qed.

Lemma classify_normal (c : R) : -0.5 < c -> _classify (Some c) = "normal"%string.
Proof.
  intros H. unfold _classify, ALERT_T, WATCH_T.
  destruct (Rle_dec c (-1.0)); [lra|].
  destruct (Rle_dec c (-0.5)); [lra|reflexivity].
Qed.

(** C4. Classification is a total function of the composite score: a missing
    score is [no-data], a score of at most -1.0 is [alert], a score above -1.0
    and at most -0.5 is [watch], a score above -0.5 is [normal]; the
    boundaries -1.0 and -0.5 are [alert] and [watch]; and severity does not
    increase when the score increases. *)
Theorem classify_thresholds :
  _classify nan = "no-data"%string /\
  (forall c, c <= -1.0 -> _classify (Some c) = "alert"%string) /\
  (forall c, -1.0 < c <= -0.5 -> _classify (Some c) = "watch"%string) /\
  (forall c, -0.5 < c -> _classify (Some c) = "normal"%string) /\
  _classify (Some (-1.0)) = "alert"%string /\
  _classify (Some (-0.5)) = "watch"%string /\
  (forall c1 c2, c1 <= c2 ->
     (severity (_classify (Some c2)) <= severity (_classify (Some c1)))%nat).
Proof.
  split; [reflexivity|].
  split; [exact classify_alert|].
  split; [exact classify_watch|].
  split; [exact classify_normal|].
  split; [apply classify_alert; lra|].
  split; [apply classify_watch; split; lra|].
  intros c1 c2 H.
  destruct (Rle_dec c1 (-1.0)) as [H1|H1].
  - rewrite (classify_alert c1 H1).
    destruct (Rle_dec c2 (-1.0)) as [H2|H2].
    + rewrite (classify_alert c2 H2). apply le_n.
    + destruct (Rle_dec c2 (-0.5)) as [H3|H3].
      * rewrite (classify_watch c2) by (split; lra). apply Nat.leb_le; reflexivity.
      * rewrite (classify_normal c2) by lra. apply Nat.leb_le; reflexivity.
  - destruct (Rle_dec c1 (-0.5)) as [H2|H2].
    + rewrite (classify_watch c1) by (split; lra).
      destruct (Rle_dec c2 (-0.5)) as [H3|H3].
      * rewrite (classify_watch c2) by (split; lra). apply le_n.
      * rewrite (classify_normal c2) by lra. apply Nat.leb_le; reflexivity.
    + rewrite (classify_normal c1), (classify_normal c2) by lra. apply le_n.
Qed.

Lemma classify_thresholds_witness :
  _classify (Some (-1.2)) = "alert"%string /\
  _classify (Some (-0.7)) = "watch"%string /\
  _classify (Some (-0.3)) = "normal"%string /\
  (severity (_classify (Some (-0.3)%R)) <= severity (_classify (Some (-1.2)%R)))%nat.
Proof.
  destruct classify_thresholds as (_ & Ha & Hw & Hn & _ & _ & Hm).
  split; [apply Ha; lra|].
  split; [apply Hw; split; lra|].
  split; [apply Hn; lra|].
  apply Hm; lra.
Defined.

(** ** The composite index *)

Ltac rdec :=
  repeat match goal with
         | |- context [Rlt_dec ?a ?b] => destruct (Rlt_dec a b); try lra
         | |- context [Rle_dec ?a ?b] => destruct (Rle_dec a b); try lra
         end.

Ltac list_eq_lra := repeat (apply f_equal2; [lra|]); reflexivity.

Lemma asi_of_weighted (a b c : value) :
  asi_of [a; b; c] = weighted_average [(0.4, a); (0.4, b); (0.2, c)].
Proof.
  unfold asi_of, weighted_average, dot, w, W_TWSA, W_SM, W_RAIN, Rsum, b2r.
  destruct a, b, c; simpl; rdec; try reflexivity; f_equal; field; lra.
Qed.

Lemma out_row_asi (f : Frame) (o : OutRow) :
  In o (df_out f) ->
  t_asi o = asi_of [t_twsa_z o; t_sm_z o; t_rain_z o] /\
  t_class o = _classify (t_asi o).
Proof.
  intros H. apply df_out_In in H. destruct H as (r & _ & ->). now split.
Qed.

Lemma out_row_rain (f : Frame) (r : Row) :
  rain_z_row f r = fneg (rain_def_z_row f r) /\
  rain_def_z_row f r = fneg (rain_z_row f r).
Proof.
  unfold rain_z_row, rain_def_z_row.
  destruct (rain_col f) as [[|]|]; rewrite ?fneg_involutive; now split.
Qed.

(** C1 (amended). For every row of the table, the composite index is the
    weighted average of the available standard scores, where the rain
    component entering the sum is the rain standard score [rain_z] (the
    negation of [rain_def_z]) with nominal weight 0.2, the storage-anomaly
    score has weight 0.4 and the soil-moisture score has weight 0.4: the sum
    of weight times score over the non-missing subset, divided by the sum of
    the weights over that subset. *)
Theorem composite_weighted_average (f : Frame) (o : OutRow) :
  In o (df_out f) ->
  t_asi o =
    weighted_average [(0.4, t_twsa_z o); (0.4, t_sm_z o); (0.2, t_rain_z o)] /\
  t_rain_z o = fneg (t_rain_def_z o).
Proof.
  intros H. split.
  - rewrite <- asi_of_weighted. now apply (out_row_asi f).
  - apply df_out_In in H. destruct H as (r & _ & ->). apply out_row_rain.
Qed.

Lemma z1_0_2_lo : z1 [Some 0; Some 2] (Some 0) = Some (-1).
Proof.
  rewrite z1_defined; simpl dropna.
  - rewrite pvar_0_2, avg_0_2, sqrt_1. simpl. f_equal. field.
  - simpl. lia.
  - rewrite pvar_0_2. lra.
Qed.

Lemma pvar_2_0 : pvar [2; 0] = 1.
Proof.
  unfold pvar, avg, Rsum. simpl. field.
Qed.

Lemma avg_2_0 : avg [2; 0] = 1.
Proof.
  unfold avg, Rsum. simpl. field.
Qed.

Lemma z1_2_0_hi : z1 [Some 2; Some 0] (Some 2) = Some 1.
Proof.
  rewrite z1_defined; simpl dropna.
  - rewrite pvar_2_0, avg_2_0, sqrt_1. simpl. f_equal. field.
  - simpl. lia.
  - rewrite pvar_2_0. lra.
Qed.

Lemma asi_of_ex (a b c : value) :
  a = Some (-1) -> b = nan -> c = Some 1 -> asi_of [a; b; c] = Some (-1 / 3).
Proof.
  intros -> -> ->. rewrite asi_of_weighted. unfold weighted_average, Rsum. simpl.
  f_equal. lra.
Qed.

Lemma ex_out1_computed : out_row ex_frame ex_row1 = ex_out1.
Proof.
  unfold out_row, ex_out1, rain_z_row, rain_def_z_row, z_row.
  cbn [ex_frame ex_row1 has_twsa has_sm rain_col rows basin_id date twsa sm precip].
  change (group ex_df twsa B1) with [Some 0; Some 2].
  change (group ex_df precip B1) with [Some 2; Some 0].
  rewrite z1_0_2_lo, z1_2_0_hi.
  rewrite (asi_of_ex _ _ _ eq_refl eq_refl eq_refl).
  rewrite (classify_normal (-1 / 3)) by lra.
  simpl. repeat f_equal.
Qed.

Lemma ex_out1_in_table : In ex_out1 (df_out ex_frame).
Proof.
  apply df_out_In. exists ex_row1. split; [now left|].
  symmetry. apply ex_out1_computed.
Qed.

Lemma composite_weighted_average_witness :
  t_asi ex_out1 = weighted_average [(0.4, Some (-1)); (0.4, nan); (0.2, Some 1)].
Proof.
  apply (composite_weighted_average ex_frame ex_out1 ex_out1_in_table).
Defined.

(** C1 as stated fails: in the table row of B1 for 2021-06 the index is -1/3,
    while the weighted average taken with the rain-deficit score is -1. *)
Lemma composite_rain_deficit_counterexample :
  In ex_out1 (df_out ex_frame) /\
  t_asi ex_out1 = Some (-1 / 3) /\
  weighted_average [(0.4, t_twsa_z ex_out1); (0.4, t_sm_z ex_out1);
                    (0.2, t_rain_def_z ex_out1)] = Some (-1) /\
  t_asi ex_out1 <>
  weighted_average [(0.4, t_twsa_z ex_out1); (0.4, t_sm_z ex_out1);
                    (0.2, t_rain_def_z ex_out1)].
Proof.
  assert (Hw : weighted_average [(0.4, t_twsa_z ex_out1); (0.4, t_sm_z ex_out1);
                                 (0.2, t_rain_def_z ex_out1)] = Some (-1)).
  { unfold weighted_average, Rsum. simpl. f_equal. lra. }
  split; [exact ex_out1_in_table|].
  split; [reflexivity|].
  split; [exact Hw|].
  rewrite Hw. simpl. intros H. injection H as H. lra.
Qed.

(** ** Weight renormalisation *)

Lemma effective_weights_three (a b c : value) :
  let comp := [a; b; c] in
  (existsb notna comp = true ->
     Rsum (effective_weights comp) = 1 /\
     asi_of comp = Some (dot (map (fillna 0) comp) (effective_weights comp)) /\
     exists k, 0 < k /\
       effective_weights comp =
       map (fun p => if notna (fst p) then k * snd p else 0)
           (combine comp [0.4; 0.4; 0.2])) /\
  (existsb notna comp = false -> asi_of comp = nan).
Proof.
  unfold effective_weights, asi_of, dot, w, W_TWSA, W_SM, W_RAIN, Rsum, b2r.
  destruct a as [a|], b as [b|], c as [c|]; simpl;
    (split; [intros H; try discriminate H|intros H; try discriminate H]);
    rdec; try reflexivity.
  all: split; [lra|split; [f_equal; lra|]].
  - exists (1 / (0.4 + 0.4 + 0.2)). split; [lra|]. list_eq_lra.
  - exists (1 / (0.4 + 0.4)). split; [lra|]. list_eq_lra.
  - exists (1 / (0.4 + 0.2)). split; [lra|]. list_eq_lra.
  - exists (1 / 0.4). split; [lra|]. list_eq_lra.
  - exists (1 / (0.4 + 0.2)). split; [lra|]. list_eq_lra.
  - exists (1 / 0.4). split; [lra|]. list_eq_lra.
  - exists (1 / 0.2). split; [lra|]. list_eq_lra.
Qed.

(** C3. For every row of the table with at least one of the three standard
    scores present, the effective weights used to form the composite sum to 1
    and are the nominal weights (0.4, 0.4, 0.2) of the present scores scaled
    by one common positive factor (an absent score carries weight 0), and the
    composite is the sum of effective weight times score; for every row with
    no standard score present the composite is missing. *)
Theorem effective_weights_normalised (f : Frame) (o : OutRow) :
  In o (df_out f) ->
  let comp := [t_twsa_z o; t_sm_z o; t_rain_z o] in
  (existsb notna comp = true ->
     Rsum (effective_weights comp) = 1 /\
     t_asi o = Some (dot (map (fillna 0) comp) (effective_weights comp)) /\
     exists k, 0 < k /\
       effective_weights comp =
       map (fun p => if notna (fst p) then k * snd p else 0)
           (combine comp [0.4; 0.4; 0.2])) /\
  (existsb notna comp = false -> t_asi o = nan /\ t_class o = "no-data"%string).
Proof.
  intros H comp. subst comp.
  destruct (out_row_asi f o H) as [Ha Hc].
  destruct (effective_weights_three (t_twsa_z o) (t_sm_z o) (t_rain_z o)) as [H1 H2].
  split.
  - intros Hk. rewrite Ha. now apply H1.
  - intros Hk. rewrite Hc, Ha, (H2 Hk). now split.
Qed.

Lemma effective_weights_normalised_witness :
  Rsum (effective_weights [t_twsa_z ex_out1; t_sm_z ex_out1; t_rain_z ex_out1]) = 1.
Proof.
  apply (effective_weights_normalised ex_frame ex_out1 ex_out1_in_table).
  reflexivity.
Defined.

(** ** Rain and rain-deficit scores *)

(** C6. For every row of the table, [rain_z] is the negation of [rain_def_z]
    and conversely, whichever column the precipitation source supplied: with
    a rainfall-amount column [rain_z] is the standard score of that column
    and [rain_def_z] its negation, with a rainfall-deficit column
    [rain_def_z] is the standard score of that column and [rain_z] its
    negation, and without a precipitation source both are missing. *)
Theorem rain_scores_negated (f : Frame) (o : OutRow) :
  In o (df_out f) ->
  t_rain_z o = fneg (t_rain_def_z o) /\
  t_rain_def_z o = fneg (t_rain_z o) /\
  exists i r,
    nth_error (rows f) i = Some r /\
    t_basin_id o = basin_id r /\ t_date o = date r /\
    match rain_col f with
    | Some rain =>
        t_rain_z o = nth i (_z_by_basin (rows f) precip) nan /\
        t_rain_def_z o = fneg (nth i (_z_by_basin (rows f) precip) nan)
    | Some rain_def =>
        t_rain_def_z o = nth i (_z_by_basin (rows f) precip) nan /\
        t_rain_z o = fneg (nth i (_z_by_basin (rows f) precip) nan)
    | None => t_rain_z o = nan /\ t_rain_def_z o = nan
    end.
Proof.
  intros H. apply df_out_In in H. destruct H as (r & Hr & ->).
  destruct (out_row_rain f r) as [H1 H2].
  split; [exact H1|]. split; [exact H2|].
  destruct (In_nth_error _ _ Hr) as [i Hi].
  exists i, r. repeat split; try exact Hi.
  simpl. unfold rain_z_row, rain_def_z_row.
  rewrite (nth_z_by_basin _ _ _ _ Hi).
  destruct (rain_col f) as [[|]|]; now split.
Qed.

Lemma rain_scores_negated_witness :
  t_rain_z ex_out1 = fneg (t_rain_def_z ex_out1).
Proof.
  apply (rain_scores_negated ex_frame ex_out1 ex_out1_in_table).
Defined.

(** ** Latest month with coverage *)

Lemma In_somes {A : Type} (l : list (option A)) (x : A) :
  In x (somes l) <-> In (Some x) l.
Proof.
  induction l as [|[y|] l IH]; simpl.
  - tauto.
  - rewrite IH. split; intros [H|H]; auto; left; congruence.
  - rewrite IH. split; [auto|]. intros [H|H]; [discriminate|exact H].
Qed.

Lemma fold_max_spec (x : Z) (l : list Z) :
  let m := fold_right Z.max x l in
  (m = x \/ In m l) /\ (x <= m)%Z /\ (forall y, In y l -> (y <= m)%Z).
Proof.
  induction l as [|a l IH]; simpl.
  - split; [now left|]. split; [lia|]. intros y [].
  - destruct IH as (H1 & H2 & H3).
    destruct (Z.max_spec a (fold_right Z.max x l)) as [[Hlt ->]|[Hle ->]].
    + split; [tauto|]. split; [exact H2|].
      intros y [<-|Hy]; [lia|now apply H3].
    + split; [auto|]. split; [lia|].
      intros y [<-|Hy]; [lia|]. specialize (H3 y Hy). lia.
Qed.

Lemma zmax_spec (l : list Z) :
  l <> [] ->
  exists m, zmax l = Some m /\ In m l /\ forall y, In y l -> (y <= m)%Z.
Proof.
  destruct l as [|x l]; [congruence|]. intros _.
  exists (fold_right Z.max x l).
  destruct (fold_max_spec x l) as (H1 & H2 & H3).
  split; [reflexivity|]. split.
  - simpl. destruct H1 as [H1|H1]; [left; now rewrite H1|now right].
  - intros y [<-|Hy]; [exact H2|now apply H3].
Qed.

Lemma present_dates (t : list OutRow) (m : Z) :
  In m (somes (map t_date t)) <-> present t m.
Proof.
  rewrite In_somes, in_map_iff. unfold present.
  split; intros (o & H1 & H2); exists o; auto.
Qed.

Lemma months_In (t : list OutRow) (m : Z) : In m (months t) <-> present t m.
Proof.
  unfold months. rewrite sort_In, nodup_In. apply present_dates.
Qed.

Lemma covered_present (t : list OutRow) (m : Z) : covered t m -> present t m.
Proof.
  intros (o & H1 & H2 & _). now exists o.
Qed.

Lemma length_pos_In {A : Type} (l : list A) :
  (0 <? length l)%nat = true <-> exists x, In x l.
Proof.
  destruct l as [|a l]; simpl.
  - split; [discriminate|]. intros [x []].
  - split; [|reflexivity]. intros _. exists a. now left.
Qed.

Lemma cov_covered (t : list OutRow) (m : Z) :
  In m (map fst (filter (fun p => (0 <? snd p)%nat) (cov t))) <-> covered t m.
Proof.
  rewrite in_map_iff. split.
  - intros ([m' n] & Hm & Hp). simpl in Hm. subst m'.
    apply filter_In in Hp. destruct Hp as [Hp Hn].
    unfold cov in Hp. apply in_map_iff in Hp.
    destruct Hp as (m' & Heq & _). injection Heq as -> <-.
    simpl in Hn. apply length_pos_In in Hn. destruct Hn as (o & Ho).
    apply filter_In in Ho. destruct Ho as [Ho Ha].
    apply filter_In in Ho. destruct Ho as [Ho Hd].
    exists o. repeat split; auto.
    destruct (t_date o) as [d|]; [|discriminate].
    apply Z.eqb_eq in Hd. now subst.
  - intros Hc. pose proof (covered_present _ _ Hc) as Hp.
    destruct Hc as (o & Ho & Hd & Ha).
    eexists (m, _). split; [reflexivity|].
    apply filter_In. split.
    + unfold cov. apply in_map_iff. exists m. split; [reflexivity|].
      now apply months_In.
    + simpl. apply length_pos_In. exists o.
      apply filter_In. split; [|exact Ha].
      apply filter_In. split; [exact Ho|].
      rewrite Hd. apply Z.eqb_refl.
Qed.

Lemma latest_dt_covered (t : list OutRow) :
  (exists m, covered t m) ->
  latest_dt t = zmax (map fst (filter (fun p => (0 <? snd p)%nat) (cov t))).
Proof.
  intros (m & Hm). unfold latest_dt.
  apply cov_covered, in_map_iff in Hm. destruct Hm as (p & _ & Hp).
  assert (He : existsb (fun p => (0 <? snd p)%nat) (cov t) = true).
  { apply existsb_exists. exists p. apply filter_In in Hp. exact Hp. }
  now rewrite He.
Qed.

Lemma latest_dt_uncovered (t : list OutRow) :
  (forall m, ~ covered t m) -> latest_dt t = zmax (somes (map t_date t)).
Proof.
  intros Hn. unfold latest_dt.
  destruct (existsb (fun p => (0 <? snd p)%nat) (cov t)) eqn:He; [|reflexivity].
  exfalso. apply existsb_exists in He. destruct He as (p & Hp & Hs).
  apply (Hn (fst p)), cov_covered, in_map. apply filter_In. now split.
Qed.

Lemma latest_dt_max_covered (t : list OutRow) :
  (exists m, covered t m) ->
  exists m, latest_dt t = Some m /\ covered t m /\
            forall m', covered t m' -> (m' <= m)%Z.
Proof.
  intros Hex. rewrite (latest_dt_covered t Hex).
  destruct Hex as (m0 & Hm0). apply cov_covered in Hm0.
  destruct (zmax_spec (map fst (filter (fun p => (0 <? snd p)%nat) (cov t))))
    as (m & H1 & H2 & H3).
  { intros E. rewrite E in Hm0. destruct Hm0. }
  exists m. split; [exact H1|]. split; [now apply cov_covered|].
  intros m' Hm'. now apply H3, cov_covered.
Qed.

Lemma by_id_get_In (l : list OutRow) (bid : string) (row : OutRow) :
  by_id_get l bid = Some row -> In row l.
Proof.
  unfold by_id_get. intros H. apply find_some in H. destruct H as [H _].
  now apply in_rev.
Qed.

Lemma latest_rows_date (t : list OutRow) (o : OutRow) :
  In o (latest t) -> t_date o = latest_dt t.
Proof.
  unfold latest. destruct (latest_dt t) as [m|]; [|intros []].
  intros H. apply filter_In in H. destruct H as [_ H].
  destruct (t_date o) as [d|]; [|discriminate].
  apply Z.eqb_eq in H. now subst.
Qed.

(** C5. The month chosen for the default snapshot is the latest month of the
    table having at least one row with a non-missing composite score; when no
    month has one, it is the latest month present at all.  In particular, in
    a table made of a month M1 with a numeric composite value and a later
    month M2 whose composite values are all missing, the chosen month is M1.
    Every feature of the snapshot carries the chosen month as its date. *)
Theorem coverage_selected_month (t : list OutRow) :
  ((exists m, covered t m) ->
   exists m, latest_dt t = Some m /\ covered t m /\
             forall m', covered t m' -> (m' <= m)%Z) /\
  ((forall m, ~ covered t m) -> (exists m, present t m) ->
   exists m, latest_dt t = Some m /\ present t m /\
             forall m', present t m' -> (m' <= m)%Z) /\
  (forall M1 M2,
     covered t M1 -> (M1 < M2)%Z -> ~ covered t M2 ->
     (forall m, present t m -> m = M1 \/ m = M2) ->
     latest_dt t = Some M1) /\
  (forall g, p_date (feature_of t g) = latest_dt t).
Proof.
  split; [apply latest_dt_max_covered|].
  split; [|split].
  - intros Hn (m0 & Hm0). rewrite (latest_dt_uncovered t Hn).
    apply present_dates in Hm0.
    destruct (zmax_spec (somes (map t_date t))) as (m & H1 & H2 & H3).
    { intros E. rewrite E in Hm0. destruct Hm0. }
    exists m. split; [exact H1|]. split; [now apply present_dates|].
    intros m' Hm'. now apply H3, present_dates.
  - intros M1 M2 Hc Hlt Hn Hall.
    destruct (latest_dt_max_covered t (ex_intro _ M1 Hc)) as (m & H1 & H2 & H3).
    rewrite H1. f_equal.
    destruct (Hall m (covered_present _ _ H2)) as [->| ->];
      [reflexivity|contradiction].
  - intros g. unfold feature_of.
    destruct (by_id_get (latest t) (bid_of g)) as [row|] eqn:E; simpl;
      [|reflexivity].
    apply latest_rows_date. now apply (by_id_get_In _ (bid_of g)).
Qed.

Lemma coverage_selected_month_witness :
  latest_dt ex_table = Some m2021_06.
Proof.
  apply (coverage_selected_month ex_table) with (M2 := m2021_07).
  - eexists. split; [left; reflexivity|]. split; reflexivity.
  - reflexivity.
  - intros (o & [<-|[<-|[<-|[]]]] & Hd & Ha); simpl in *; discriminate.
  - intros m (o & [<-|[<-|[<-|[]]]] & Hd); simpl in Hd;
      injection Hd as <-; auto.
Defined.

(** ** Rounding and serialisation *)

Lemma pow_10_3 : 10 ^ 3 = 1000.
Proof. simpl. lra. Qed.

Lemma round_rounded3 (x : R) : rounded3 (round x 3).
Proof.
  unfold rounded3, round. rewrite pow_10_3. now eexists.
Qed.

Lemma main_table (f : Frame) (gj : list Basin) :
  fst (main f gj) = map csv_row (df_out f).
Proof. reflexivity. Qed.

Lemma main_snapshot (f : Frame) (gj : list Basin) :
  snd (main f gj) = map (feature_of (df_out f)) gj.
Proof. reflexivity. Qed.

Lemma feature_props_rounded (t : list OutRow) (g : Basin) (v : value) (x : R) :
  In v (numeric_props (feature_of t g)) -> v = Some x -> rounded3 x.
Proof.
  unfold feature_of, numeric_props.
  destruct (by_id_get (latest t) (bid_of g)) as [row|]; simpl; intros H E; subst v.
  - repeat (destruct H as [H|H];
            [unfold Pipeline._r in H;
             match type of H with
             | match ?u with _ => _ end = _ => destruct u; [|discriminate]
             end;
             injection H as <-; apply round_rounded3|]).
    destruct H.
  - repeat (destruct H as [H|H]; [discriminate|]). destruct H.
Qed.

Lemma third_not_rounded3 : ~ rounded3 (-1 / 3).
Proof.
  intros [k Hk].
  assert (H : IZR (3 * k) = IZR (-1000)) by (rewrite mult_IZR; lra).
  apply eq_IZR in H. lia.
Qed.

(** ** The order of the table *)








(** ** History *)


(** ** Ranking *)

Lemma round_thousandths (k : Z) : round (IZR k / 1000) 3 = IZR k / 1000.
Proof.
  unfold round, round_half_even. rewrite pow_10_3.
  replace (IZR k / 1000 * 1000) with (IZR k) by lra.
  rewrite ZfloorZ.
  destruct (Rlt_dec (IZR k - IZR k) (1 / 2)); [reflexivity|lra].
Qed.

Lemma numeric_rows_In (gj : list Feature) (r : App.RankRow) :
  In r (App.numeric_rows gj) <->
  exists ft asi, In ft gj /\ p_asi ft = Some asi /\ r = App.rank_row ft asi.
Proof.
  induction gj as [|ft gj IH]; simpl.
  - split; [intros []|intros (? & ? & [] & _)].
  - destruct (p_asi ft) as [asi|] eqn:E; simpl; rewrite IH; split.
    + intros [<-|(ft' & a & H1 & H2 & H3)].
      * exists ft, asi. auto.
      * exists ft', a. auto.
    + intros (ft' & a & [<-|H1] & H2 & H3).
      * left. congruence.
      * right. exists ft', a. auto.
    + intros (ft' & a & H1 & H2 & H3). exists ft', a. auto.
    + intros (ft' & a & [<-|H1] & H2 & H3); [congruence|].
      exists ft', a. auto.
Qed.

Lemma numeric_rows_keys (gj : list Feature) : Forall has_key (App.numeric_rows gj).
Proof.
  apply Forall_forall. intros r Hr. apply numeric_rows_In in Hr.
  destruct Hr as (ft & asi & _ & _ & ->). now eexists.
Qed.

Lemma asi_leb_le (a b : App.RankRow) :
  has_key a -> has_key b -> (App.asi_leb a b = true <-> asi_le a b).
Proof.
  intros [x Hx] [y Hy]. unfold App.asi_leb, App.key_lt, asi_le.
  rewrite Hx, Hy. destruct (Rlt_dec y x); simpl; split; intros H;
    try reflexivity; try discriminate; lra.
Qed.

Lemma asi_leb_total (a b : App.RankRow) :
  has_key a -> has_key b -> App.asi_leb a b = true \/ App.asi_leb b a = true.
Proof.
  intros Ha Hb. rewrite (asi_leb_le a b Ha Hb), (asi_leb_le b a Hb Ha).
  destruct Ha as [x Hx], Hb as [y Hy]. unfold asi_le. rewrite Hx, Hy. lra.
Qed.

Lemma asi_leb_trans (a b c : App.RankRow) :
  has_key a -> has_key b -> has_key c ->
  App.asi_leb a b = true -> App.asi_leb b c = true -> App.asi_leb a c = true.
Proof.
  intros Ha Hb Hc.
  rewrite (asi_leb_le a b Ha Hb), (asi_leb_le b c Hb Hc), (asi_leb_le a c Ha Hc).
  destruct Ha as [x Hx], Hb as [y Hy], Hc as [z Hz]. unfold asi_le.
  rewrite Hx, Hy, Hz. lra.
Qed.

Lemma sort_asi_sorted (l : list App.RankRow) :
  Forall has_key l -> StronglySorted asi_le (sort App.asi_leb l).
Proof.
  intros Hl.
  pose proof (sort_sorted App.asi_leb has_key asi_leb_total asi_leb_trans l Hl) as Hs.
  rewrite <- (map_id (sort App.asi_leb l)).
  apply (StronglySorted_map (fun a b => App.asi_leb a b = true)); [|exact Hs].
  intros a b Ha Hb Hab.
  assert (Hk : forall r, In r (sort App.asi_leb l) -> has_key r).
  { intros r Hr. apply (proj1 (sort_In _ _ _)) in Hr.
    revert r Hr. now apply Forall_forall. }
  now apply asi_leb_le; auto.
Qed.

Lemma wanted_empty : App.wanted_of "" = [].
Proof. reflexivity. Qed.

Lemma wanted_default : App.wanted_of "alert,watch" = ["alert"; "watch"]%string.
Proof. reflexivity. Qed.

Lemma top10_unfiltered (limit : Z) (gj : list Feature) :
  App.asi_top10 (Some limit) (Some ""%string) gj =
  firstn (Z.to_nat (Z.max 0 limit)) (sort App.asi_leb (App.numeric_rows gj)).
Proof.
  unfold App.asi_top10. now rewrite wanted_empty.
Qed.

Lemma top10_default (limit : option Z) (gj : list Feature) :
  App.asi_top10 limit None gj =
  firstn (Z.to_nat (Z.max 0 (match limit with Some l => l | None => 10%Z end)))
    (sort App.asi_leb
       (filter (fun r => App.mem (App.r_class r) ["alert"; "watch"]%string)
          (App.numeric_rows gj))).
Proof.
  unfold App.asi_top10. now rewrite wanted_default.
Qed.

Lemma In_firstn {A : Type} (n : nat) (l : list A) (x : A) :
  In x (firstn n l) -> In x l.
Proof.
  intros H. rewrite <- (firstn_skipn n l). apply in_or_app. now left.
Qed.

Lemma ex_rank_rows :
  App.numeric_rows ex_gj = [ex_rank_normal; ex_rank_alert].
Proof.
  unfold ex_gj, ex_rank_normal, ex_rank_alert. simpl.
  unfold App.rank_row, App._r. simpl.
  replace 0.3 with (IZR 300 / 1000) by lra.
  replace (-1.2) with (IZR (-1200) / 1000) by lra.
  now rewrite !round_thousandths.
Qed.

Lemma ex_rank_sorted :
  sort App.asi_leb [ex_rank_normal; ex_rank_alert] = [ex_rank_alert; ex_rank_normal].
Proof.
  simpl. unfold App.asi_leb, App.key_lt. simpl. rdec. reflexivity.
Qed.

(** The unfiltered ranking of the sample snapshot: the alert basin first. *)
Lemma ranking_unfiltered_example :
  App.asi_top10 None (Some ""%string) ex_gj = [ex_rank_alert; ex_rank_normal].
Proof.
  unfold App.asi_top10. rewrite wanted_empty, ex_rank_rows, ex_rank_sorted.
  reflexivity.
Qed.

(** The default ranking of the sample snapshot leaves the normal basin out. *)
Lemma ranking_default_example :
  App.asi_top10 None None ex_gj = [ex_rank_alert].
Proof.
  rewrite top10_default, ex_rank_rows. reflexivity.
Qed.

(** C10. When no class filter is given, the filter is the set of alert and
    watch: every returned row has one of these two classes, so a basin
    classified normal is left out even with a numeric composite score, and
    the default ranking differs from the unfiltered one. *)
Theorem ranking_default_filter (limit : option Z) (gj : list Feature) :
  App.asi_top10 limit None gj = App.asi_top10 limit (Some "alert,watch"%string) gj /\
  (forall r, In r (App.asi_top10 limit None gj) ->
     App.r_class r = "alert"%string \/ App.r_class r = "watch"%string) /\
  (forall r, In r (App.asi_top10 limit None gj) ->
     App.r_class r <> "normal"%string) /\
  (In ex_rank_normal (App.asi_top10 None (Some ""%string) ex_gj) /\
   ~ In ex_rank_normal (App.asi_top10 None None ex_gj) /\
   App.asi_top10 None None ex_gj <> App.asi_top10 None (Some ""%string) ex_gj).
Proof.
  assert (Hcls : forall r, In r (App.asi_top10 limit None gj) ->
            App.r_class r = "alert"%string \/ App.r_class r = "watch"%string).
  { intros r Hr. rewrite top10_default in Hr.
    apply In_firstn in Hr. apply (proj1 (sort_In _ _ _)) in Hr.
    apply filter_In in Hr. destruct Hr as [_ Hm].
    unfold App.mem in Hm. simpl in Hm.
    apply orb_true_iff in Hm. destruct Hm as [Hm|Hm].
    - left. now apply String.eqb_eq.
    - rewrite orb_false_r in Hm. right. now apply String.eqb_eq. }
  split; [reflexivity|]. split; [exact Hcls|]. split.
  - intros r Hr E. destruct (Hcls r Hr) as [H|H]; rewrite H in E; discriminate.
  - rewrite ranking_unfiltered_example, ranking_default_example.
    split; [right; now left|]. split.
    + intros [H|[]]. discriminate.
    + discriminate.
Qed.

Lemma ranking_default_filter_witness :
  App.r_class ex_rank_alert = "alert"%string \/
  App.r_class ex_rank_alert = "watch"%string.
Proof.
  apply (ranking_default_filter None ex_gj).
  rewrite ranking_default_example. now left.
Defined.


(** * Further properties of the pipeline *)

(** ** Standard scores of one group *)








(** ** The composite index of a row *)

Lemma asi_of_bounds (a b c : value) (lo hi y : R) :
  (forall v x, In v [a; b; c] -> v = Some x -> lo <= x <= hi) ->
  asi_of [a; b; c] = Some y -> lo <= y <= hi.
Proof.
  intros H.
  assert (Ha : forall x, a = Some x -> lo <= x <= hi)
    by (intros x E; apply (H a); [now left|exact E]).
  assert (Hb : forall x, b = Some x -> lo <= x <= hi)
    by (intros x E; apply (H b); [right; now left|exact E]).
  assert (Hc : forall x, c = Some x -> lo <= x <= hi)
    by (intros x E; apply (H c); [right; right; now left|exact E]).
  clear H.
  unfold asi_of, dot, w, W_TWSA, W_SM, W_RAIN, Rsum, b2r.
  destruct a as [a|], b as [b|], c as [c|]; simpl; rdec; intros E;
    try discriminate E; injection E as <-;
    try specialize (Ha _ eq_refl); try specialize (Hb _ eq_refl);
    try specialize (Hc _ eq_refl); lra.
Qed.

(** The composite index of a table row lies between the smallest and the
    largest of the standard scores available in that row. *)
Theorem asi_between_scores (f : Frame) (o : OutRow) (lo hi y : R) :
  In o (df_out f) ->
  (forall v x, In v [t_twsa_z o; t_sm_z o; t_rain_z o] -> v = Some x ->
               lo <= x <= hi) ->
  t_asi o = Some y -> lo <= y <= hi.
Proof.
  intros Ho Hb Hy. destruct (out_row_asi f o Ho) as [Ha _].
  rewrite Ha in Hy. now apply (asi_of_bounds _ _ _ lo hi y Hb).
Qed.

Lemma asi_between_scores_witness : -1 <= -1 / 3 <= 1.
Proof.
  apply (asi_between_scores ex_frame ex_out1 (-1) 1 (-1 / 3) ex_out1_in_table).
  - intros v x [<-|[<-|[<-|[]]]] E; simpl in E; try discriminate;
      injection E as <-; lra.
  - reflexivity.
Defined.

Lemma classify_some_not_no_data (a : R) : _classify (Some a) <> "no-data"%string.
Proof.
  unfold _classify. destruct (Rle_dec a ALERT_T); [discriminate|].
  destruct (Rle_dec a WATCH_T); discriminate.
Qed.

Lemma asi_of_nan_iff (a b c : value) :
  asi_of [a; b; c] = nan <-> a = nan /\ b = nan /\ c = nan.
Proof.
  unfold asi_of, dot, w, W_TWSA, W_SM, W_RAIN, Rsum, b2r.
  destruct a as [a|], b as [b|], c as [c|]; simpl; rdec;
    split; try discriminate; try (intros (? & ? & ?); discriminate); auto.
Qed.

(** In every table row the class is [no-data] exactly when the composite
    index is missing, and the index is missing exactly when the three standard
    scores are all missing. *)
Theorem no_data_iff_no_score (f : Frame) (o : OutRow) :
  In o (df_out f) ->
  (t_class o = "no-data"%string <-> t_asi o = nan) /\
  (t_asi o = nan <->
   t_twsa_z o = nan /\ t_sm_z o = nan /\ t_rain_z o = nan).
Proof.
  intros Ho. destruct (out_row_asi f o Ho) as [Ha Hc]. split.
  - rewrite Hc. destruct (t_asi o) as [a|]; split; intros H;
      try reflexivity; try discriminate.
    now apply classify_some_not_no_data in H.
  - rewrite Ha. apply asi_of_nan_iff.
Qed.

Lemma no_data_iff_no_score_witness : t_asi ex_out1 <> nan.
Proof.
  intros E.
  apply (no_data_iff_no_score ex_frame ex_out1 ex_out1_in_table) in E.
  destruct E as [E _]. discriminate E.
Defined.

(** ** The lines of the table *)

(** The table has exactly one line per row of the merged frame, with the
    same basin and date keys: sorting neither drops nor repeats a row. *)
Theorem table_one_line_per_row (f : Frame) (gj : list Basin) :
  length (fst (main f gj)) = length (rows f) /\
  Permutation (map (fun c => (c_basin_id c, c_date c)) (fst (main f gj)))
              (map (fun r => (basin_id r, date r)) (rows f)).
Proof.
  rewrite main_table.
  pose proof (sort_perm row_leb (scored f)) as Hp. fold (df_out f) in Hp.
  rewrite scored_pointwise in Hp. split.
  - rewrite length_map, (Permutation_length Hp). apply length_map.
  - rewrite map_map.
    rewrite (Permutation_map (fun o => (t_basin_id o, t_date o)) Hp).
    rewrite map_map. reflexivity.
Qed.


(** ** The snapshot artifact *)

Lemma find_all_false {A : Type} (p : A -> bool) (l : list A) :
  (forall x, In x l -> p x = false) -> find p l = None.
Proof.
  induction l as [|a l IH]; intros H; simpl; [reflexivity|].
  rewrite (H a) by now left. apply IH. intros x Hx. apply H. now right.
Qed.

Lemma latest_In (t : list OutRow) (o : OutRow) : In o (latest t) -> In o t.
Proof.
  unfold latest. destruct (latest_dt t); [|intros []].
  intros H. now apply filter_In in H.
Qed.

(** The snapshot has one feature per basin of the geometry collection, in
    the same order.  A basin with no table row in the chosen month is a
    placeholder: null scores, class [no-data], its name left as it was;
    otherwise the feature shows the rounded scores and the class of a row of
    that basin in that month, and it has a name. *)
Theorem snapshot_one_feature_per_basin (f : Frame) (gj : list Basin) :
  map f_basin (snd (main f gj)) = gj /\
  (forall g, In g gj ->
     (forall o, In o (latest (df_out f)) -> t_basin_id o <> bid_of g) ->
     feature_of (df_out f) g =
     mkFeature g (g_name g) (latest_dt (df_out f)) None None None None None
       "no-data") /\
  (forall g, In g gj ->
     (exists o, In o (latest (df_out f)) /\ t_basin_id o = bid_of g) ->
     exists row, In row (latest (df_out f)) /\ t_basin_id row = bid_of g /\
       p_asi (feature_of (df_out f) g) = Pipeline._r (t_asi row) /\
       p_class (feature_of (df_out f) g) = t_class row /\
       p_name (feature_of (df_out f) g) <> None).
Proof.
  rewrite main_snapshot. split; [|split].
  - rewrite map_map. rewrite <- (map_id gj) at 2. apply map_ext.
    intros g. unfold feature_of.
    now destruct (by_id_get (latest (df_out f)) (bid_of g)).
  - intros g _ Hno. unfold feature_of, by_id_get.
    rewrite find_all_false; [reflexivity|].
    intros x Hx. apply in_rev in Hx.
    apply String.eqb_neq. now apply Hno.
  - intros g _ (o & Ho & Hb). unfold feature_of.
    destruct (by_id_get (latest (df_out f)) (bid_of g)) as [row|] eqn:E.
    + exists row. pose proof (by_id_get_In _ _ _ E) as Hin.
      unfold by_id_get in E. apply find_some in E. destruct E as [_ E].
      apply String.eqb_eq in E. simpl.
      repeat split; auto.
      destruct (g_name g) as [[|c n]|]; discriminate.
    + exfalso. unfold by_id_get in E.
      apply in_rev in Ho. pose proof (find_none _ _ E o Ho) as Hf.
      simpl in Hf. apply String.eqb_neq in Hf. contradiction.
Qed.

Lemma ex_covered_07 : covered (df_out ex_frame) m2021_07.
Proof.
  set (r := mkRow B1 (Some m2021_07) (Some 2) None (Some 0)).
  exists (out_row ex_frame r).
  split; [apply df_out_In; exists r; split; [right; now left|reflexivity]|].
  split; [reflexivity|].
  destruct (t_asi (out_row ex_frame r)) as [y|] eqn:E; [reflexivity|exfalso].
  change (asi_of [t_twsa_z (out_row ex_frame r); t_sm_z (out_row ex_frame r);
                  t_rain_z (out_row ex_frame r)] = nan) in E.
  apply asi_of_nan_iff in E. destruct E as [E _]. revert E.
  change (t_twsa_z (out_row ex_frame r)) with (z1 [Some 0; Some 2] (Some 2)).
  rewrite z1_defined.
  - discriminate.
  - simpl. lia.
  - simpl dropna. rewrite pvar_0_2. lra.
Qed.

Lemma ex_latest_07 : latest_dt (df_out ex_frame) = Some m2021_07.
Proof.
  destruct (latest_dt_max_covered _ (ex_intro _ _ ex_covered_07))
    as (m & H1 & H2 & H3).
  rewrite H1. f_equal.
  specialize (H3 _ ex_covered_07).
  destruct H2 as (o & Ho & Hd & _). apply df_out_In in Ho.
  destruct Ho as (r & [<-|[<-|[<-|[]]]] & ->); simpl in Hd;
    injection Hd as <-; try reflexivity.
  unfold m2021_06, m2021_07 in *. lia.
Qed.

Lemma snapshot_one_feature_per_basin_witness :
  exists row, In row (latest (df_out ex_frame)) /\ t_basin_id row = B2.
Proof.
  destruct (snapshot_one_feature_per_basin ex_frame ex_basins) as (_ & _ & H).
  destruct (H (mkBasin None (Some B2) None)) as (row & H1 & H2 & _).
  - right. now left.
  - exists (out_row ex_frame (mkRow B2 (Some m2021_07) (Some 5) None None)).
    split; [|reflexivity].
    unfold latest. rewrite ex_latest_07. apply filter_In. split.
    + apply df_out_In. eexists. split; [|reflexivity]. right. right. now left.
    + reflexivity.
  - exists row. now split.
Defined.

(** ** Rounding *)

Lemma round_half_even_cases (y : R) :
  let f := Zfloor y in
  (round_half_even y = f /\ y - IZR f <= 1 / 2) \/
  (round_half_even y = (f + 1)%Z /\ 1 / 2 <= y - IZR f).
Proof.
  unfold round_half_even. simpl.
  destruct (Rlt_dec (y - IZR (Zfloor y)) (1 / 2)); [left; split; [reflexivity|lra]|].
  destruct (Rlt_dec (1 / 2) (y - IZR (Zfloor y))); [right; split; [reflexivity|lra]|].
  destruct (Z.even (Zfloor y)); [left|right]; split; try reflexivity; lra.
Qed.

Lemma round_half_even_near (y : R) :
  - (1 / 2) <= IZR (round_half_even y) - y <= 1 / 2.
Proof.
  pose proof (Zfloor_bound y) as Hb.
  destruct (round_half_even_cases y) as [[-> H]|[-> H]];
    rewrite ?plus_IZR; lra.
Qed.

Lemma Zfloor_opp_frac (y : R) :
  IZR (Zfloor y) < y -> Zfloor (- y) = (- Zfloor y - 1)%Z.
Proof.
  intros H. pose proof (Zfloor_bound y) as Hb.
  apply Zfloor_eq. rewrite minus_IZR, opp_IZR. lra.
Qed.

Lemma round_half_even_opp (y : R) :
  round_half_even (- y) = (- round_half_even y)%Z.
Proof.
  pose proof (Zfloor_bound y) as Hb.
  destruct (Req_dec (IZR (Zfloor y)) y) as [E|N].
  - rewrite <- E at 1 2. unfold round_half_even.
    rewrite <- opp_IZR, !ZfloorZ.
    replace (IZR (- Zfloor y) - IZR (- Zfloor y)) with 0 by ring.
    replace (IZR (Zfloor y) - IZR (Zfloor y)) with 0 by ring.
    destruct (Rlt_dec 0 (1 / 2)); [reflexivity|lra].
  - assert (Hlt : IZR (Zfloor y) < y) by lra.
    unfold round_half_even. rewrite (Zfloor_opp_frac y Hlt).
    rewrite minus_IZR, opp_IZR.
    set (f := Zfloor y) in *.
    assert (Hev : Z.even (- f - 1) = negb (Z.even f)).
    { rewrite Z.even_sub, Z.even_opp. simpl. now destruct (Z.even f). }
    rewrite Hev.
    destruct (Rlt_dec (y - IZR f) (1 / 2)), (Rlt_dec (1 / 2) (y - IZR f)),
      (Rlt_dec (- y - (- IZR f - 1)) (1 / 2)),
      (Rlt_dec (1 / 2) (- y - (- IZR f - 1)));
      try lra; try lia.
    destruct (Z.even f); simpl; lia.
Qed.

Lemma round_opp (x : R) (nd : nat) : round (- x) nd = - round x nd.
Proof.
  unfold round.
  replace (- x * 10 ^ nd) with (- (x * 10 ^ nd)) by ring.
  rewrite round_half_even_opp, opp_IZR. unfold Rdiv. ring.
Qed.

Lemma round_half_even_mono (y y' : R) :
  y <= y' -> (round_half_even y <= round_half_even y')%Z.
Proof.
  intros H. pose proof (Zfloor_le _ _ H) as Hf.
  pose proof (Zfloor_bound y) as Hb. pose proof (Zfloor_bound y') as Hb'.
  destruct (Z.eq_dec (Zfloor y) (Zfloor y')) as [E|N].
  - unfold round_half_even. rewrite <- E in *.
    destruct (Rlt_dec (y - IZR (Zfloor y)) (1 / 2)),
      (Rlt_dec (1 / 2) (y - IZR (Zfloor y))),
      (Rlt_dec (y' - IZR (Zfloor y)) (1 / 2)),
      (Rlt_dec (1 / 2) (y' - IZR (Zfloor y)));
      try lra; try lia; destruct (Z.even (Zfloor y)); lia.
  - destruct (round_half_even_cases y) as [[-> _]|[-> _]],
      (round_half_even_cases y') as [[-> _]|[-> _]]; lia.
Qed.

Lemma fneg_r (v : value) : Pipeline._r (fneg v) = fneg (Pipeline._r v).
Proof.
  destruct v as [x|]; simpl; [|reflexivity]. now rewrite round_opp.
Qed.

(** Rounding to 3 decimal places moves a score by at most 0.0005, keeps the
    order of two scores and commutes with negation. *)
Theorem rounding_is_faithful (x x' : R) :
  (exists y, Pipeline._r (Some x) = Some y /\ App._r (App.PyNum x) = Some y /\
             Rabs (y - x) <= 1 / 2000) /\
  (x <= x' -> round x 3 <= round x' 3) /\
  round (- x) 3 = - round x 3.
Proof.
  split; [|split].
  - exists (round x 3). split; [reflexivity|]. split; [reflexivity|].
    unfold round. rewrite pow_10_3.
    pose proof (round_half_even_near (x * 1000)) as H.
    apply Rabs_le. lra.
  - intros H. unfold round. rewrite pow_10_3.
    assert (Hm : (round_half_even (x * 1000) <= round_half_even (x' * 1000))%Z)
      by (apply round_half_even_mono; lra).
    apply IZR_le in Hm. lra.
  - apply round_opp.
Qed.

Lemma rounding_is_faithful_witness : round 0 3 <= round 1 3.
Proof.
  apply (rounding_is_faithful 0 1). lra.
Defined.

(** In every feature of the snapshot the rain score is still the exact
    negation of the rain-deficit score, after both were rounded. *)
Theorem snapshot_rain_scores_negated (f : Frame) (gj : list Basin) (ft : Feature) :
  In ft (snd (main f gj)) ->
  p_rain_z ft = fneg (p_rain_def_z ft) /\ p_rain_def_z ft = fneg (p_rain_z ft).
Proof.
  rewrite main_snapshot. intros H. apply in_map_iff in H.
  destruct H as (g & <- & _). unfold feature_of.
  destruct (by_id_get (latest (df_out f)) (bid_of g)) as [row|] eqn:E; simpl;
    [|now split].
  apply by_id_get_In, latest_In, df_out_In in E. destruct E as (r & _ & ->).
  simpl. destruct (out_row_rain f r) as [H1 H2].
  split; [rewrite H1 at 1|rewrite H2 at 1]; apply fneg_r.
Qed.

Lemma snapshot_rain_scores_negated_witness :
  p_rain_z (feature_of (df_out ex_frame) (mkBasin None (Some B1) None)) =
  fneg (p_rain_def_z (feature_of (df_out ex_frame) (mkBasin None (Some B1) None))).
Proof.
  apply (snapshot_rain_scores_negated ex_frame [mkBasin None (Some B1) None]).
  now left.
Defined.


(** * Further properties of the query layer *)

(** ** The month parameter of a snapshot *)

Lemma take_app (d sfx : string) :
  App.take (String.length d) (d ++ sfx) = d.
Proof.
  induction d as [|c d IH]; simpl.
  - now destruct sfx.
  - now rewrite IH.
Qed.

Lemma take_all (d : string) : App.take (String.length d) d = d.
Proof.
  induction d as [|c d IH]; simpl; [reflexivity|]. now rewrite IH.
Qed.

(** A snapshot request only looks at the first 7 characters of its date:
    a date and the same date followed by anything else (a day, for
    instance) give the same answer, error or not. *)
Theorem snapshot_reads_seven_characters (table : option (list CsvRow))
    (basins : list Basin) (d sfx : string) :
  String.length d = 7%nat ->
  App.geojson_for_date table basins (d ++ sfx) =
  App.geojson_for_date table basins d.
Proof.
  intros H. unfold App.geojson_for_date.
  pose proof (take_app d sfx) as H1. pose proof (take_all d) as H2.
  rewrite H in H1, H2. now rewrite H1, H2.
Qed.

Lemma snapshot_reads_seven_characters_witness :
  App.geojson_for_date (Some ex_csv) ex_basins "2021-07-15" =
  App.geojson_for_date (Some ex_csv) ex_basins "2021-07".
Proof.
  apply (snapshot_reads_seven_characters (Some ex_csv) ex_basins "2021-07" "-15").
  reflexivity.
Defined.

Lemma digit_cases (k : Z) :
  (0 <= k <= 9)%Z ->
  k = 0%Z \/ k = 1%Z \/ k = 2%Z \/ k = 3%Z \/ k = 4%Z \/ k = 5%Z \/
  k = 6%Z \/ k = 7%Z \/ k = 8%Z \/ k = 9%Z.
Proof. lia. Qed.

Lemma is_digit_char (k : Z) :
  (0 <= k <= 9)%Z ->
  App.is_digit (digit_char k) = true /\ App.digit_val (digit_char k) = k.
Proof.
  intros H. destruct (digit_cases k H) as [E|[E|[E|[E|[E|[E|[E|[E|[E|E]]]]]]]]];
    subst k; now split.
Qed.

Lemma month_text_parses (m : Z) :
  (1 <= m <= 12)%Z ->
  App.match_month_day
    (String (digit_char (m / 10)) (String (digit_char (m mod 10)) "-01")) =
  Some (m, 1%Z, EmptyString).
Proof.
  intros H.
  assert (E : (m = 1 \/ m = 2 \/ m = 3 \/ m = 4 \/ m = 5 \/ m = 6 \/ m = 7 \/
               m = 8 \/ m = 9 \/ m = 10 \/ m = 11 \/ m = 12)%Z) by lia.
  destruct E as [E|[E|[E|[E|[E|[E|[E|[E|[E|[E|[E|E]]]]]]]]]]]; subst m;
    reflexivity.
Qed.

Lemma first_day_exists (y m : Z) : (1 <=? App.days_in_month y m)%Z = true.
Proof.
  unfold App.days_in_month.
  destruct (m =? 2)%Z; [now destruct (App.is_leap y)|].
  now destruct ((m =? 4) || (m =? 6) || (m =? 9) || (m =? 11))%Z.
Qed.

Lemma year_digits (y : Z) :
  (0 <= y <= 9999)%Z ->
  (0 <= y / 1000 <= 9 /\ 0 <= y / 100 mod 10 <= 9 /\
   0 <= y / 10 mod 10 <= 9 /\ 0 <= y mod 10 <= 9 /\
   1000 * (y / 1000) + 100 * (y / 100 mod 10) + 10 * (y / 10 mod 10)
   + y mod 10 = y)%Z.
Proof.
  intros H.
  pose proof (Z.div_mod y 10 ltac:(lia)) as E1.
  pose proof (Z.div_mod (y / 10) 10 ltac:(lia)) as E2.
  pose proof (Z.div_mod (y / 100) 10 ltac:(lia)) as E3.
  pose proof (Z.mod_pos_bound y 10 ltac:(lia)) as B1.
  pose proof (Z.mod_pos_bound (y / 10) 10 ltac:(lia)) as B2.
  pose proof (Z.mod_pos_bound (y / 100) 10 ltac:(lia)) as B3.
  assert (D2 : (y / 100 = y / 10 / 10)%Z)
    by (rewrite Z.div_div by lia; reflexivity).
  assert (D3 : (y / 1000 = y / 100 / 10)%Z)
    by (rewrite Z.div_div by lia; reflexivity).
  rewrite <- D2 in E2. rewrite <- D3 in E3.
  repeat split; lia.
Qed.

Lemma strptime_fmt_ym (y m : Z) :
  (1 <= y <= 9999)%Z -> (1 <= m <= 12)%Z ->
  App.strptime (fmt_ym y m ++ "-01") = Some (y, m, 1%Z).
Proof.
  intros Hy Hm.
  destruct (year_digits y ltac:(lia)) as (H1 & H2 & H3 & H4 & Hsum).
  destruct (is_digit_char _ H1) as [D1 V1].
  destruct (is_digit_char _ H2) as [D2 V2].
  destruct (is_digit_char _ H3) as [D3 V3].
  destruct (is_digit_char _ H4) as [D4 V4].
  unfold fmt_ym. cbn [append]. unfold App.strptime.
  rewrite D1, D2, D3, D4, V1, V2, V3, V4, Hsum.
  cbn [andb Ascii.eqb Bool.eqb].
  rewrite (month_text_parses m Hm), first_day_exists.
  assert (Hy1 : (1 <=? y)%Z = true) by (apply Z.leb_le; lia).
  now rewrite Hy1.
Qed.

(** Asking for the snapshot of year [y] and month [m], written [YYYY-MM] and
    followed by anything (nothing, a day), succeeds when the table exists and
    gives the features of exactly that month. *)
Theorem snapshot_month_round_trip (t : list CsvRow) (basins : list Basin)
    (y m : Z) (sfx : string) :
  (1000 <= y <= 9999)%Z -> (1 <= m <= 12)%Z ->
  App.geojson_for_date (Some t) basins (fmt_ym y m ++ sfx) =
  App.Ok (features_at t basins (App.month_index y m)).
Proof.
  intros Hy Hm. unfold App.geojson_for_date.
  replace (App.take 7 (fmt_ym y m ++ sfx)) with (fmt_ym y m)
    by (symmetry; apply (take_app (fmt_ym y m) sfx)).
  now rewrite (strptime_fmt_ym y m ltac:(lia) Hm).
Qed.

Lemma snapshot_month_round_trip_witness :
  App.geojson_for_date (Some ex_csv) ex_basins "2021-07-01" =
  App.Ok (features_at ex_csv ex_basins m2021_07).
Proof.
  apply (snapshot_month_round_trip ex_csv ex_basins 2021 7 "-01"); lia.
Defined.

(** ** Errors of a snapshot request *)

Lemma short_date_rejected (date : string) :
  (String.length date < 6)%nat ->
  App.strptime (App.take 7 date ++ "-01") = None.
Proof.
  intros H.
  destruct date as [|c1 [|c2 [|c3 [|c4 [|c5 [|c6 rest]]]]]];
    simpl in H; try lia; cbn [App.take append]; unfold App.strptime;
    try reflexivity.
  - destruct (App.is_digit c1), (App.is_digit c2); reflexivity.
  - destruct (App.is_digit c1), (App.is_digit c2), (App.is_digit c3); reflexivity.
  - destruct (App.is_digit c1), (App.is_digit c2), (App.is_digit c3),
      (App.is_digit c4); reflexivity.
  - destruct (App.is_digit c1), (App.is_digit c2), (App.is_digit c3),
      (App.is_digit c4), (Ascii.eqb c5 "-"); reflexivity.
Qed.

(** A snapshot request fails with 404 whenever the table does not exist,
    whatever the date; with the table present it fails only on the date, with
    400, and it does so for every date shorter than 6 characters. *)
Theorem snapshot_request_errors (table : option (list CsvRow))
    (basins : list Basin) (date : string) :
  (table = None ->
   exists e, App.geojson_for_date table basins date = App.Raise e /\
             App.status_code e = 404%Z) /\
  (forall e, App.geojson_for_date table basins date = App.Raise e ->
     (table = None /\ App.status_code e = 404%Z) \/
     (table <> None /\ App.status_code e = 400%Z)) /\
  (table <> None -> (String.length date < 6)%nat ->
   exists e, App.geojson_for_date table basins date = App.Raise e /\
             App.status_code e = 400%Z).
Proof.
  unfold App.geojson_for_date. destruct table as [t|].
  - split; [discriminate|]. split.
    + intros e H. right. split; [discriminate|].
      destruct (App.strptime (App.take 7 date ++ "-01")) as [[[y m] d]|];
        [discriminate|]. now injection H as <-.
    + intros _ Hl. rewrite (short_date_rejected date Hl).
      eexists. split; reflexivity.
  - split; [intros _; eexists; split; reflexivity|]. split.
    + intros e H. left. split; [reflexivity|]. now injection H as <-.
    + congruence.
Qed.

Lemma snapshot_request_errors_witness :
  exists e, App.geojson_for_date (Some ex_csv) ex_basins "2021" = App.Raise e /\
            App.status_code e = 400%Z.
Proof.
  apply (snapshot_request_errors (Some ex_csv) ex_basins "2021").
  - discriminate.
  - simpl. lia.
Defined.

(** ** The features of a snapshot for a month *)

Lemma feature_for_basin (target : Z) (rows : list CsvRow) (g : Basin) :
  f_basin (App.feature_for target rows g) = g /\
  p_date (App.feature_for target rows g) = Some target.
Proof.
  unfold App.feature_for. now destruct (App.by_id_get rows (bid_of g)).
Qed.

Lemma app_r_rounded (a : App.Arg) (x : R) : App._r a = Some x -> rounded3 x.
Proof.
  destruct a as [|[| |]|]; simpl; intros H; try discriminate;
    injection H as <-; apply round_rounded3.
Qed.

Lemma feature_for_rounded (target : Z) (rows : list CsvRow) (g : Basin)
    (v : value) (x : R) :
  In v (numeric_props (App.feature_for target rows g)) -> v = Some x -> rounded3 x.
Proof.
  unfold App.feature_for, numeric_props.
  destruct (App.by_id_get rows (bid_of g)) as [r|];
    cbn [In p_twsa_z p_sm_z p_rain_z p_rain_def_z p_asi]; intros H E; subst v.
  - destruct H as [H|[H|[H|[H|[H|[]]]]]]; now apply app_r_rounded in H.
  - destruct H as [H|[H|[H|[H|[H|[]]]]]]; discriminate.
Qed.

(** A successful snapshot request for a month has one feature per basin of
    the geometry collection, in the same order, each dated with that month;
    every numeric property is null or has at most 3 decimal places; and a
    basin with no line in the table for that month is a placeholder with null
    scores and class [no-data]. *)
Theorem snapshot_structure (t : list CsvRow) (basins : list Basin)
    (date : string) (feats : list Feature) :
  App.geojson_for_date (Some t) basins date = App.Ok feats ->
  exists target,
    feats = features_at t basins target /\
    map f_basin feats = basins /\
    (forall ft, In ft feats -> p_date ft = Some target) /\
    (forall ft v x, In ft feats -> In v (numeric_props ft) -> v = Some x ->
                    rounded3 x) /\
    (forall ft, In ft feats ->
       (forall r, In r t -> c_date r = Some target ->
                  c_basin_id r <> bid_of (f_basin ft)) ->
       p_class ft = "no-data"%string /\
       numeric_props ft = [None; None; None; None; None]).
Proof.
  unfold App.geojson_for_date.
  destruct (App.strptime (App.take 7 date ++ "-01")) as [[[y m] d]|];
    [|discriminate].
  intros H. injection H as <-. exists (App.month_index y m).
  set (target := App.month_index y m).
  set (rows := filter (App.on_month target) t).
  split; [reflexivity|]. split; [|split; [|split]].
  - rewrite map_map. rewrite <- (map_id basins) at 2. apply map_ext.
    intros g. apply feature_for_basin.
  - intros ft H. apply in_map_iff in H. destruct H as (g & <- & _).
    apply feature_for_basin.
  - intros ft v x H. apply in_map_iff in H. destruct H as (g & <- & _).
    apply feature_for_rounded.
  - intros ft H Hno. apply in_map_iff in H. destruct H as (g & <- & _).
    destruct (feature_for_basin target rows g) as [Hb _]. rewrite Hb in Hno.
    unfold App.feature_for, App.by_id_get.
    rewrite find_all_false; [now split|].
    intros r Hr. apply in_rev in Hr. apply filter_In in Hr.
    destruct Hr as [Hr Hd]. apply String.eqb_neq. apply Hno; [exact Hr|].
    unfold App.on_month in Hd. destruct (c_date r) as [dt|]; [|discriminate].
    apply Z.eqb_eq in Hd. now subst.
Qed.

Lemma snapshot_structure_witness :
  exists target, map f_basin (features_at ex_csv ex_basins m2021_07) = ex_basins /\
                 target = m2021_07.
Proof.
  destruct (snapshot_structure ex_csv ex_basins "2021-07"
              (features_at ex_csv ex_basins m2021_07) eq_refl)
    as (target & H1 & H2 & _).
  exists m2021_07. now split.
Defined.

(** ** The default snapshot and the snapshot of a month *)

Lemma app_r_cell (v : value) : App._r (App.PyStr (cell_of v)) = Pipeline._r v.
Proof. now destruct v. Qed.

Lemma find_map {A B : Type} (p : B -> bool) (g : A -> B) (l : list A) :
  find p (map g l) = option_map g (find (fun a => p (g a)) l).
Proof.
  induction l as [|a l IH]; simpl; [reflexivity|].
  now destruct (p (g a)).
Qed.

Lemma feature_for_pipeline (t : list OutRow) (target : Z) (g : Basin) :
  latest_dt t = Some target ->
  App.feature_for target (filter (App.on_month target) (to_csv t)) g =
  feature_of t g.
Proof.
  intros Hl. unfold App.feature_for, feature_of, App.by_id_get, Pipeline.by_id_get.
  assert (Hrows : latest t = filter (fun o => App.on_month target (csv_row o)) t).
  { unfold latest. rewrite Hl. reflexivity. }
  unfold to_csv. rewrite filter_map_swap, <- map_rev, find_map, <- Hrows.
  change (fun a : OutRow => (c_basin_id (csv_row a) =? bid_of g)%string)
    with (fun o : OutRow => (t_basin_id o =? bid_of g)%string).
  destruct (find (fun o => (t_basin_id o =? bid_of g)%string) (rev (latest t)))
    as [row|] eqn:E;
    cbn [option_map csv_row c_twsa_z c_sm_z c_rain_z c_rain_def_z c_asi c_class].
  - assert (Hd : t_date row = Some target).
    { rewrite <- Hl. apply latest_rows_date.
      apply find_some in E. destruct E as [E _]. now apply in_rev. }
    rewrite Hd, !app_r_cell. reflexivity.
  - now rewrite Hl.
Qed.

(** The default snapshot written by the pipeline is the snapshot the query
    layer builds from the table for the coverage-selected month. *)
Theorem default_snapshot_is_snapshot_of_latest (f : Frame) (gj : list Basin)
    (y m : Z) (sfx : string) :
  (1000 <= y <= 9999)%Z -> (1 <= m <= 12)%Z ->
  latest_dt (df_out f) = Some (App.month_index y m) ->
  App.geojson_for_date (Some (fst (main f gj))) gj (fmt_ym y m ++ sfx) =
  App.Ok (App.latest_geojson (App.Loaded (snd (main f gj))) gj).
Proof.
  intros Hy Hm Hl. unfold App.geojson_for_date.
  replace (App.take 7 (fmt_ym y m ++ sfx)) with (fmt_ym y m)
    by (symmetry; apply (take_app (fmt_ym y m) sfx)).
  rewrite (strptime_fmt_ym y m ltac:(lia) Hm).
  change (App.latest_geojson (App.Loaded (snd (main f gj))) gj)
    with (map (feature_of (df_out f)) gj).
  change (fst (main f gj)) with (to_csv (df_out f)).
  f_equal. apply map_ext.
  intros g. now apply feature_for_pipeline.
Qed.

Lemma default_snapshot_is_snapshot_of_latest_witness :
  App.geojson_for_date (Some (fst (main ex_frame ex_basins))) ex_basins "2021-07" =
  App.Ok (snd (main ex_frame ex_basins)).
Proof.
  apply (default_snapshot_is_snapshot_of_latest ex_frame ex_basins 2021 7 "");
    try lia.
  exact ex_latest_07.
Defined.

(** ** The fallback snapshot *)

Lemma numeric_rows_no_data (basins : list Basin) :
  App.numeric_rows (map App.no_data_feature basins) = [].
Proof.
  induction basins as [|g basins IH]; simpl; [reflexivity|exact IH].
Qed.

Lemma top10_of_no_numeric (limit : option Z) (classes : option string)
    (gj : list Feature) :
  App.numeric_rows gj = [] -> App.asi_top10 limit classes gj = [].
Proof.
  intros H. unfold App.asi_top10. rewrite H.
  destruct (App.wanted_of _); simpl; apply firstn_nil.
Qed.

Lemma bump_same (c : string) (k : nat) : App.bump c [(c, k)] = [(c, S k)].
Proof.
  simpl. now rewrite String.eqb_refl.
Qed.

Lemma counter_const_acc (c : string) (l : list string) (k : nat) :
  (forall x, In x l -> x = c) ->
  fold_left (fun acc x => App.bump x acc) l [(c, k)] = [(c, (k + length l)%nat)].
Proof.
  revert k. induction l as [|x l IH]; intros k H; cbn [fold_left length].
  - now rewrite Nat.add_0_r.
  - rewrite (H x) by now left. rewrite bump_same, IH.
    + f_equal. f_equal. lia.
    + intros y Hy. apply H. now right.
Qed.

(** When the prebuilt snapshot is missing or unreadable, the default snapshot
    still has one feature per basin, all of them dateless [no-data]
    placeholders; its ranking is empty for every limit and filter, and its
    summary has no date, no minimum, no maximum, and counts every basin as
    [no-data]. *)
Theorem fallback_snapshot_has_no_data (prebuilt : App.Prebuilt)
    (basins : list Basin) :
  (forall gj, prebuilt <> App.Loaded gj) ->
  let gj := App.latest_geojson prebuilt basins in
  map f_basin gj = basins /\
  (forall ft, In ft gj ->
     p_class ft = "no-data"%string /\ p_asi ft = None /\ p_date ft = None) /\
  (forall limit classes, App.asi_top10 limit classes gj = []) /\
  App.as_of (App.asi_summary gj) = None /\
  App.min_asi (App.asi_summary gj) = None /\
  App.max_asi (App.asi_summary gj) = None /\
  (basins <> [] ->
   App.counts (App.asi_summary gj) = [("no-data"%string, length basins)]).
Proof.
  intros Hp gj.
  assert (E : gj = map App.no_data_feature basins).
  { unfold gj. destruct prebuilt as [| |l]; try reflexivity.
    now destruct (Hp l). }
  clearbody gj. subst gj.
  split; [|split; [|split; [|split; [|split; [|split]]]]].
  - rewrite map_map. rewrite <- (map_id basins) at 2. now apply map_ext.
  - intros ft H. apply in_map_iff in H. now destruct H as (g & <- & _).
  - intros limit classes. apply top10_of_no_numeric, numeric_rows_no_data.
  - unfold App.asi_summary. cbn [App.as_of].
    induction basins as [|g basins IH]; simpl; auto.
  - unfold App.asi_summary. cbn [App.min_asi].
    replace (dropna (map p_asi (map App.no_data_feature basins))) with (@nil R);
      [reflexivity|].
    induction basins as [|g basins IH]; simpl; auto.
  - unfold App.asi_summary. cbn [App.max_asi].
    replace (dropna (map p_asi (map App.no_data_feature basins))) with (@nil R);
      [reflexivity|].
    induction basins as [|g basins IH]; simpl; auto.
  - intros Hne. unfold App.asi_summary. cbn [App.counts]. unfold App.Counter.
    destruct basins as [|g basins]; [congruence|].
    cbn [map fold_left App.bump].
    rewrite (counter_const_acc "no-data").
    + now rewrite !length_map.
    + intros x Hx. rewrite map_map in Hx. apply in_map_iff in Hx.
      now destruct Hx as (g' & <- & _).
Qed.

Lemma fallback_snapshot_has_no_data_witness :
  App.asi_top10 None (Some ""%string)
    (App.latest_geojson App.Missing ex_basins) = [] /\
  App.counts (App.asi_summary (App.latest_geojson App.Missing ex_basins)) =
  [("no-data"%string, 2%nat)].
Proof.
  destruct (fallback_snapshot_has_no_data App.Missing ex_basins)
    as (_ & _ & H3 & _ & _ & _ & H7); [discriminate|].
  split; [apply H3|]. apply H7. discriminate.
Defined.

(** ** Summary *)

Lemma In_dropna (s : Series) (x : R) : In x (dropna s) <-> In (Some x) s.
Proof.
  induction s as [|[y|] s IH]; simpl.
  - tauto.
  - rewrite IH. split; intros [H|H]; auto; left; congruence.
  - rewrite IH. split; [auto|]. intros [H|H]; [discriminate|exact H].
Qed.

Lemma fold_min_spec (l : list R) (x : R) :
  let m := fold_left Rmin l x in
  m <= x /\ (forall y, In y l -> m <= y) /\ (m = x \/ In m l).
Proof.
  revert x. induction l as [|a l IH]; intros x; simpl.
  - split; [lra|]. split; [intros y []|now left].
  - destruct (IH (Rmin x a)) as (H1 & H2 & H3).
    pose proof (Rmin_l x a) as Hl. pose proof (Rmin_r x a) as Hr.
    split; [lra|]. split.
    + intros y [<-|Hy]; [lra|now apply H2].
    + destruct H3 as [H3|H3]; [|right; now right].
      rewrite H3. unfold Rmin. destruct (Rle_dec x a); [now left|right; now left].
Qed.

Lemma fold_max_R_spec (l : list R) (x : R) :
  let m := fold_left Rmax l x in
  x <= m /\ (forall y, In y l -> y <= m) /\ (m = x \/ In m l).
Proof.
  revert x. induction l as [|a l IH]; intros x; simpl.
  - split; [lra|]. split; [intros y []|now left].
  - destruct (IH (Rmax x a)) as (H1 & H2 & H3).
    pose proof (Rmax_l x a) as Hl. pose proof (Rmax_r x a) as Hr.
    split; [lra|]. split.
    + intros y [<-|Hy]; [lra|now apply H2].
    + destruct H3 as [H3|H3]; [|right; now right].
      rewrite H3. unfold Rmax. destruct (Rle_dec x a); [right; now left|now left].
Qed.

Lemma In_asis (gj : list Feature) (x : R) :
  In x (dropna (map p_asi gj)) <-> exists ft, In ft gj /\ p_asi ft = Some x.
Proof.
  rewrite In_dropna, in_map_iff.
  split; intros (ft & H1 & H2); exists ft; now split.
Qed.

(** The summary reports a minimum and a maximum composite score exactly when
    some feature has a numeric score; both are scores of features of the
    snapshot and every numeric score lies between them. *)
Theorem summary_min_max (gj : list Feature) :
  ((forall ft, In ft gj -> p_asi ft = None) ->
   App.min_asi (App.asi_summary gj) = None /\
   App.max_asi (App.asi_summary gj) = None) /\
  (forall ft x, In ft gj -> p_asi ft = Some x ->
     exists lo hi,
       App.min_asi (App.asi_summary gj) = Some lo /\
       App.max_asi (App.asi_summary gj) = Some hi /\
       lo <= x <= hi /\
       (exists f1, In f1 gj /\ p_asi f1 = Some lo) /\
       (exists f2, In f2 gj /\ p_asi f2 = Some hi)).
Proof.
  unfold App.asi_summary. cbn [App.min_asi App.max_asi]. split.
  - intros Hn.
    destruct (dropna (map p_asi gj)) as [|a l] eqn:E; [now split|exfalso].
    assert (Ha : In a (dropna (map p_asi gj))) by (rewrite E; now left).
    apply In_asis in Ha. destruct Ha as (ft & Hft & Hx).
    rewrite (Hn ft Hft) in Hx. discriminate.
  - intros ft x Hft Hx.
    assert (Hin : In x (dropna (map p_asi gj))) by (apply In_asis; eauto).
    assert (Hall : forall y, In y (dropna (map p_asi gj)) ->
                     exists f0, In f0 gj /\ p_asi f0 = Some y)
      by (intros y Hy; now apply In_asis).
    destruct (dropna (map p_asi gj)) as [|a l]; [destruct Hin|].
    destruct (fold_min_spec l a) as (L1 & L2 & L3).
    destruct (fold_max_R_spec l a) as (U1 & U2 & U3).
    exists (fold_left Rmin l a), (fold_left Rmax l a).
    split; [reflexivity|]. split; [reflexivity|]. split; [|split].
    + destruct Hin as [<-|Hin]; [lra|].
      specialize (L2 x Hin). specialize (U2 x Hin). lra.
    + apply Hall. destruct L3 as [->|L3]; [now left|now right].
    + apply Hall. destruct U3 as [->|U3]; [now left|now right].
Qed.

Lemma summary_min_max_witness :
  exists lo hi,
    App.min_asi (App.asi_summary ex_gj) = Some lo /\
    App.max_asi (App.asi_summary ex_gj) = Some hi /\
    lo <= 0.3 <= hi.
Proof.
  destruct (summary_min_max ex_gj) as [_ H].
  destruct (H ex_normal 0.3) as (lo & hi & H1 & H2 & H3 & _).
  - now left.
  - reflexivity.
  - now exists lo, hi.
Defined.

Lemma count_of_bump (c x : string) (acc : list (string * nat)) :
  count_of c (App.bump x acc) =
  (count_of c acc + (if String.eqb x c then 1 else 0))%nat.
Proof.
  induction acc as [|[k n] acc IH]; simpl.
  - destruct (String.eqb x c); reflexivity.
  - destruct (String.eqb_spec k x) as [->|Hkx]; simpl.
    + destruct (String.eqb x c); lia.
    + destruct (String.eqb_spec k c) as [->|Hkc].
      * destruct (String.eqb_spec x c) as [->|_]; [congruence|lia].
      * exact IH.
Qed.

Lemma keys_bump (x k : string) (acc : list (string * nat)) :
  In k (map fst (App.bump x acc)) <-> k = x \/ In k (map fst acc).
Proof.
  induction acc as [|[k' n] acc IH]; simpl.
  - split; [intros [H|[]]; now left|intros [H|[]]; now left].
  - destruct (String.eqb_spec k' x) as [->|Hkx]; simpl.
    + intuition auto.
    + rewrite IH. intuition auto.
Qed.

Lemma NoDup_bump (x : string) (acc : list (string * nat)) :
  NoDup (map fst acc) -> NoDup (map fst (App.bump x acc)).
Proof.
  induction acc as [|[k n] acc IH]; simpl; intros H.
  - repeat constructor. intros [].
  - inversion H as [|? ? Hk Hn]; subst.
    destruct (String.eqb_spec k x) as [->|Hkx]; simpl.
    + now constructor.
    + constructor; [|now apply IH].
      rewrite keys_bump. intros [E|E]; [congruence|contradiction].
Qed.

Lemma total_bump (x : string) (acc : list (string * nat)) :
  fold_right Nat.add 0%nat (map snd (App.bump x acc)) =
  S (fold_right Nat.add 0%nat (map snd acc)).
Proof.
  induction acc as [|[k n] acc IH]; simpl; [reflexivity|].
  destruct (String.eqb k x); simpl; [reflexivity|]. rewrite IH. lia.
Qed.

Lemma counter_acc (l : list string) (acc : list (string * nat)) :
  let res := fold_left (fun a x => App.bump x a) l acc in
  (forall c, count_of c res =
             (count_of c acc + length (filter (fun x => String.eqb x c) l))%nat) /\
  (NoDup (map fst acc) -> NoDup (map fst res)) /\
  fold_right Nat.add 0%nat (map snd res) =
  (fold_right Nat.add 0%nat (map snd acc) + length l)%nat.
Proof.
  revert acc. induction l as [|x l IH]; intros acc; cbn [fold_left].
  - split; [intros c; simpl; lia|]. split; [auto|simpl; lia].
  - destruct (IH (App.bump x acc)) as (H1 & H2 & H3).
    split; [|split].
    + intros c. rewrite H1, count_of_bump. simpl.
      destruct (String.eqb x c); simpl; lia.
    + intros Hn. now apply H2, NoDup_bump.
    + rewrite H3, total_bump. simpl. lia.
Qed.

(** The summary counts every feature once: the count of a class is the number
    of features of that class, each class is listed once, and the counts add
    up to the number of features. *)
Theorem summary_counts_features (gj : list Feature) :
  (forall c, count_of c (App.counts (App.asi_summary gj)) = features_of_class c gj) /\
  NoDup (map fst (App.counts (App.asi_summary gj))) /\
  fold_right Nat.add 0%nat (map snd (App.counts (App.asi_summary gj))) = length gj.
Proof.
  unfold App.asi_summary. cbn [App.counts]. unfold App.Counter.
  destruct (counter_acc (map p_class gj) []) as (H1 & H2 & H3).
  split; [|split].
  - intros c. rewrite H1. simpl. unfold features_of_class.
    now rewrite filter_map_swap, length_map.
  - apply H2. constructor.
  - rewrite H3, length_map. reflexivity.
Qed.

Lemma first_date_features_at (t : list CsvRow) (basins : list Basin) (target : Z) :
  basins <> [] -> App.first_date (features_at t basins target) = Some target.
Proof.
  destruct basins as [|g basins]; [congruence|]. intros _.
  unfold features_at. cbn [map App.first_date].
  now destruct (feature_for_basin target (filter (App.on_month target) t) g)
    as [_ ->].
Qed.

(** The summary of a month's snapshot is dated with that month as soon as the
    geometry collection has a basin, whether or not the table has any line
    for the month. *)
Theorem summary_as_of_month (t : list CsvRow) (basins : list Basin)
    (y m : Z) (sfx : string) :
  (1000 <= y <= 9999)%Z -> (1 <= m <= 12)%Z -> basins <> [] ->
  exists feats,
    App.geojson_for_date (Some t) basins (fmt_ym y m ++ sfx) = App.Ok feats /\
    App.as_of (App.asi_summary feats) = Some (App.month_index y m).
Proof.
  intros Hy Hm Hb. exists (features_at t basins (App.month_index y m)). split.
  - unfold App.geojson_for_date.
    replace (App.take 7 (fmt_ym y m ++ sfx)) with (fmt_ym y m)
      by (symmetry; apply (take_app (fmt_ym y m) sfx)).
    now rewrite (strptime_fmt_ym y m ltac:(lia) Hm).
  - unfold App.asi_summary. cbn [App.as_of]. now apply first_date_features_at.
Qed.

Lemma summary_as_of_month_witness :
  exists feats,
    App.geojson_for_date (Some ex_csv) ex_basins "2030-01" = App.Ok feats /\
    App.as_of (App.asi_summary feats) = Some (App.month_index 2030 1).
Proof.
  apply (summary_as_of_month ex_csv ex_basins 2030 1 ""); try lia. discriminate.
Defined.

(** ** Latest date and date range *)


Section Scan.

Variable step : option Z -> Z -> option Z.
Variable ord : Z -> Z -> Prop.
Hypothesis ord_refl : forall a, ord a a.
Hypothesis ord_trans : forall a b c, ord a b -> ord b c -> ord a c.
Hypothesis step_first : forall d, step None d = Some d.
Hypothesis step_next :
  forall l d, exists a, step (Some l) d = Some a /\ (a = l \/ a = d) /\
                        ord l a /\ ord d a.

Lemma scan_acc (rdr : list CsvRow) (acc : option Z) :
  match fold_left (scan_step step) rdr acc with
  | None => acc = None /\ forall r, In r rdr -> c_date r = None
  | Some m =>
      (acc = Some m \/ exists r, In r rdr /\ c_date r = Some m) /\
      (forall a, acc = Some a -> ord a m) /\
      (forall r d, In r rdr -> c_date r = Some d -> ord d m)
  end.
Proof.
  revert acc. induction rdr as [|r rdr IH]; intros acc; cbn [fold_left].
  - destruct acc as [a|].
    + split; [now left|]. split; [intros ? [= <-]; apply ord_refl|intros ? ? []].
    + split; [reflexivity|intros ? []].
  - specialize (IH (scan_step step acc r)).
    destruct (c_date r) as [d|] eqn:Hd.
    + assert (Hs : exists a, step acc d = Some a /\
                   (acc = Some a \/ a = d) /\
                   (forall l, acc = Some l -> ord l a) /\ ord d a).
      { destruct acc as [l|].
        - destruct (step_next l d) as (a & E & Hor & O1 & O2). exists a.
          split; [exact E|].
          split; [destruct Hor as [->| ->]; [now left|now right]|].
          split; [intros ? [= <-]; exact O1|exact O2].
        - exists d. rewrite step_first. split; [reflexivity|].
          split; [now right|]. split; [intros ? [=]|apply ord_refl]. }
      destruct Hs as (a & E & Ha & O1 & O2).
      assert (Hstep : scan_step step acc r = Some a)
        by (unfold scan_step; now rewrite Hd).
      rewrite Hstep in IH |- *.
      destruct (fold_left (scan_step step) rdr (Some a)) as [m|].
      * destruct IH as (I1 & I2 & I3).
        pose proof (I2 a eq_refl) as Oam.
        split; [|split].
        -- destruct I1 as [[= <-]|(r' & Hr' & Hd')].
           ++ destruct Ha as [Ha| ->]; [now left|].
              right. exists r. split; [now left|exact Hd].
           ++ right. exists r'. split; [now right|exact Hd'].
        -- intros l El. apply (ord_trans _ a); auto.
        -- intros r' d' [<-|Hr'] Hd'.
           ++ rewrite Hd in Hd'. injection Hd' as <-.
              now apply (ord_trans _ a).
           ++ now apply (I3 r').
      * destruct IH as [IH _]. discriminate.
    + assert (Hstep : scan_step step acc r = acc)
        by (unfold scan_step; now rewrite Hd).
      rewrite Hstep in IH |- *.
      destruct (fold_left (scan_step step) rdr acc) as [m|].
      * destruct IH as (I1 & I2 & I3). split; [|split; [exact I2|]].
        -- destruct I1 as [I1|(r' & Hr' & Hd')]; [now left|].
           right. exists r'. split; [now right|exact Hd'].
        -- intros r' d' [<-|Hr'] Hd'; [congruence|now apply (I3 r')].
      * destruct IH as [I1 I2]. split; [exact I1|].
        intros r' [<-|Hr']; [exact Hd|now apply I2].
Qed.

End Scan.

Lemma scan_later (rdr : list CsvRow) :
  match App.scan App.later rdr with
  | None => forall r, In r rdr -> c_date r = None
  | Some m =>
      (exists r, In r rdr /\ c_date r = Some m) /\
      (forall r d, In r rdr -> c_date r = Some d -> (d <= m)%Z)
  end.
Proof.
  pose proof (scan_acc App.later Z.le Z.le_refl Z.le_trans) as H.
  specialize (H (fun d => eq_refl)).
  assert (Hn : forall l d, exists a, App.later (Some l) d = Some a /\
                 (a = l \/ a = d) /\ (l <= a)%Z /\ (d <= a)%Z).
  { intros l d. unfold App.later. destruct (Z.ltb_spec l d).
    - exists d. repeat split; auto; lia.
    - exists l. repeat split; auto; lia. }
  specialize (H Hn rdr None). unfold App.scan.
  change (fun acc r => match c_date r with
                       | Some d => App.later acc d
                       | None => acc
                       end) with (scan_step App.later).
  destruct (fold_left (scan_step App.later) rdr None) as [m|].
  - destruct H as ([H|H] & _ & H3); [discriminate|]. now split.
  - now destruct H.
Qed.

Lemma scan_earlier (rdr : list CsvRow) :
  match App.scan App.earlier rdr with
  | None => forall r, In r rdr -> c_date r = None
  | Some m =>
      (exists r, In r rdr /\ c_date r = Some m) /\
      (forall r d, In r rdr -> c_date r = Some d -> (m <= d)%Z)
  end.
Proof.
  pose proof (scan_acc App.earlier (fun a b => (b <= a)%Z)) as H.
  specialize (H Z.le_refl (fun a b c H1 H2 => Z.le_trans _ _ _ H2 H1)
                (fun d => eq_refl)).
  assert (Hn : forall l d, exists a, App.earlier (Some l) d = Some a /\
                 (a = l \/ a = d) /\ (a <= l)%Z /\ (a <= d)%Z).
  { intros l d. unfold App.earlier. destruct (Z.ltb_spec d l).
    - exists d. repeat split; auto; lia.
    - exists l. repeat split; auto; lia. }
  specialize (H Hn rdr None). unfold App.scan.
  change (fun acc r => match c_date r with
                       | Some d => App.earlier acc d
                       | None => acc
                       end) with (scan_step App.earlier).
  destruct (fold_left (scan_step App.earlier) rdr None) as [m|].
  - destruct H as ([H|H] & _ & H3); [discriminate|]. now split.
  - now destruct H.
Qed.

(** With a table that has a dated line, the latest date is the greatest date
    of the table and the date range runs from its least to its greatest
    date, both being dates of lines; with no dated line both answers are
    empty rather than errors. *)
Theorem latest_date_and_range (t : list CsvRow) :
  ((forall r, In r t -> c_date r = None) ->
   App.asi_latest_date (Some t) = App.Ok None /\
   App.asi_date_range (Some t) = App.Ok (None, None)) /\
  (forall r d, In r t -> c_date r = Some d ->
     exists lo hi,
       App.asi_latest_date (Some t) = App.Ok (Some hi) /\
       App.asi_date_range (Some t) = App.Ok (Some lo, Some hi) /\
       (lo <= d <= hi)%Z /\
       (exists r1, In r1 t /\ c_date r1 = Some lo) /\
       (exists r2, In r2 t /\ c_date r2 = Some hi)).
Proof.
  pose proof (scan_later t) as Hl. pose proof (scan_earlier t) as He.
  unfold App.asi_latest_date, App.asi_date_range. split.
  - intros Hn.
    destruct (App.scan App.later t) as [hi|].
    { destruct Hl as ((r & Hr & Hd) & _). rewrite (Hn r Hr) in Hd. discriminate. }
    destruct (App.scan App.earlier t) as [lo|]; [|now split].
    destruct He as ((r & Hr & Hd) & _). rewrite (Hn r Hr) in Hd. discriminate.
  - intros r d Hr Hd.
    destruct (App.scan App.later t) as [hi|];
      [|rewrite (Hl r Hr) in Hd; discriminate].
    destruct (App.scan App.earlier t) as [lo|];
      [|rewrite (He r Hr) in Hd; discriminate].
    destruct Hl as (Hl1 & Hl2), He as (He1 & He2).
    exists lo, hi. split; [reflexivity|]. split; [reflexivity|].
    split; [split; [now apply (He2 r)|now apply (Hl2 r)]|]. now split.
Qed.

Lemma latest_date_and_range_witness :
  exists lo hi,
    App.asi_date_range (Some ex_csv) = App.Ok (Some lo, Some hi) /\
    (lo <= m2021_06 <= hi)%Z.
Proof.
  destruct (latest_date_and_range ex_csv) as [_ H].
  destruct (H (mkCsv B1 (Some m2021_06) (Num 1) Empty Empty Empty Empty Empty
                 Empty Empty Empty "no-data") m2021_06)
    as (lo & hi & _ & H2 & H3 & _).
  - now left.
  - reflexivity.
  - now exists lo, hi.
Defined.

Lemma zmax_In (l : list Z) (m : Z) : zmax l = Some m -> In m l.
Proof.
  intros H. destruct (zmax_spec l) as (m' & H1 & H2 & _).
  - intros ->. discriminate.
  - rewrite H in H1. injection H1 as ->. exact H2.
Qed.

Lemma latest_dt_present (t : list OutRow) (m : Z) :
  latest_dt t = Some m -> present t m.
Proof.
  unfold latest_dt.
  destruct (existsb (fun p => (0 <? snd p)%nat) (cov t)); intros H;
    apply zmax_In in H.
  - now apply covered_present, cov_covered.
  - now apply present_dates.
Qed.

(** The month of the default snapshot is never later than the latest date of
    the table, which is the greatest date of any table row, covered or not. *)
Theorem coverage_month_not_after_latest_date (t : list OutRow) (m : Z) :
  latest_dt t = Some m ->
  exists hi,
    App.asi_latest_date (Some (to_csv t)) = App.Ok (Some hi) /\
    (m <= hi)%Z /\
    (forall o d, In o t -> t_date o = Some d -> (d <= hi)%Z).
Proof.
  intros H. apply latest_dt_present in H. destruct H as (o & Ho & Hd).
  pose proof (scan_later (to_csv t)) as Hs. unfold App.asi_latest_date.
  destruct (App.scan App.later (to_csv t)) as [hi|].
  - destruct Hs as [_ Hs]. exists hi. split; [reflexivity|].
    assert (Hall : forall o d, In o t -> t_date o = Some d -> (d <= hi)%Z).
    { intros o' d Ho' Hd'. apply (Hs (csv_row o')); [|exact Hd'].
      unfold to_csv. now apply in_map. }
    split; [now apply (Hall o)|exact Hall].
  - exfalso. assert (E : c_date (csv_row o) = None).
    { apply Hs. unfold to_csv. now apply in_map. }
    simpl in E. congruence.
Qed.

Lemma ex_table_latest : latest_dt ex_table = Some m2021_06.
Proof. reflexivity. Qed.

Lemma coverage_month_not_after_latest_date_witness :
  exists hi,
    App.asi_latest_date (Some (to_csv ex_table)) = App.Ok (Some hi) /\
    (m2021_06 <= hi)%Z /\ (m2021_07 <= hi)%Z.
Proof.
  destruct (coverage_month_not_after_latest_date ex_table m2021_06 ex_table_latest)
    as (hi & H1 & H2 & H3).
  exists hi. split; [exact H1|]. split; [exact H2|].
  apply (H3 (mkOut B1 (Some m2021_07) nan nan nan nan nan nan nan nan nan "no-data")).
  - right. now left.
  - reflexivity.
Defined.

(** ** Ranking rows *)

Lemma top10_In_numeric (limit : option Z) (classes : option string)
    (gj : list Feature) (r : App.RankRow) :
  In r (App.asi_top10 limit classes gj) -> In r (App.numeric_rows gj).
Proof.
  unfold App.asi_top10. intros H. apply In_firstn in H.
  apply (proj1 (sort_In _ _ _)) in H.
  destruct (App.wanted_of _); [exact H|]. now apply filter_In in H.
Qed.

(** Every row of a ranking comes from a feature of the snapshot that has a
    numeric composite score, and shows that feature's name, class and date;
    when the scores of the snapshot have at most 3 decimal places, as in the
    snapshots the system builds, the row shows the score unchanged. *)
Theorem ranking_rows_come_from_snapshot (limit : option Z)
    (classes : option string) (gj : list Feature) (r : App.RankRow) :
  (forall ft x, In ft gj -> p_asi ft = Some x -> rounded3 x) ->
  In r (App.asi_top10 limit classes gj) ->
  exists ft, In ft gj /\ p_asi ft <> None /\
    App.r_asi r = p_asi ft /\ App.r_class r = p_class ft /\
    App.r_date r = p_date ft /\ App.r_name r = p_name ft.
Proof.
  intros Hr H. apply top10_In_numeric, numeric_rows_In in H.
  destruct H as (ft & x & Hft & Hx & ->). exists ft.
  split; [exact Hft|]. split; [congruence|].
  split; [|now repeat split].
  destruct (Hr ft x Hft Hx) as [k ->]. rewrite Hx. simpl.
  now rewrite round_thousandths.
Qed.

Lemma ex_gj_rounded (ft : Feature) (x : R) :
  In ft ex_gj -> p_asi ft = Some x -> rounded3 x.
Proof.
  intros [<-|[<-|[<-|[]]]] E; simpl in E; try discriminate; injection E as <-.
  - exists 300%Z. lra.
  - exists (-1200)%Z. lra.
Qed.

Lemma ranking_rows_come_from_snapshot_witness :
  exists ft, In ft ex_gj /\ p_asi ft <> None /\
    App.r_asi ex_rank_alert = p_asi ft /\ App.r_class ex_rank_alert = p_class ft /\
    App.r_date ex_rank_alert = p_date ft /\ App.r_name ex_rank_alert = p_name ft.
Proof.
  apply (ranking_rows_come_from_snapshot None None ex_gj ex_rank_alert ex_gj_rounded).
  rewrite ranking_default_example. now left.
Defined.

Lemma length_filter_le {A : Type} (p : A -> bool) (l : list A) :
  (length (filter p l) <= length l)%nat.
Proof.
  induction l as [|a l IH]; simpl; [lia|]. destruct (p a); simpl; lia.
Qed.

Lemma length_numeric_rows (gj : list Feature) :
  (length (App.numeric_rows gj) <= length gj)%nat.
Proof.
  induction gj as [|ft gj IH]; simpl; [lia|].
  destruct (p_asi ft); simpl; lia.
Qed.

(** A ranking never has more rows than the limit asks for, nor more than the
    snapshot has features; a zero or negative limit gives the empty list. *)
Theorem ranking_length_bounds (limit : Z) (classes : option string)
    (gj : list Feature) :
  (Z.of_nat (length (App.asi_top10 (Some limit) classes gj)) <= Z.max 0 limit)%Z /\
  (length (App.asi_top10 (Some limit) classes gj) <= length gj)%nat /\
  ((limit <= 0)%Z -> App.asi_top10 (Some limit) classes gj = []).
Proof.
  unfold App.asi_top10.
  set (rows := sort App.asi_leb _).
  assert (Hrows : (length rows <= length gj)%nat).
  { unfold rows. rewrite (Permutation_length (sort_perm App.asi_leb _)).
    pose proof (length_numeric_rows gj) as Hn.
    destruct (App.wanted_of _); [exact Hn|].
    pose proof (length_filter_le
                  (fun r => App.mem (App.r_class r) (s :: l))
                  (App.numeric_rows gj)). lia. }
  pose proof (firstn_le_length (Z.to_nat (Z.max 0 limit)) rows) as H1.
  split; [lia|]. split.
  - rewrite length_firstn. lia.
  - intros Hl. replace (Z.max 0 limit) with 0%Z by lia. reflexivity.
Qed.

Lemma ranking_length_bounds_witness :
  App.asi_top10 (Some (-3)%Z) None ex_gj = [].
Proof.
  apply (ranking_length_bounds (-3) None ex_gj). lia.
Defined.

(** ** History of a basin in the table of the pipeline *)

Lemma perm_filter {A : Type} (p : A -> bool) (l l' : list A) :
  Permutation l l' -> Permutation (filter p l) (filter p l').
Proof.
  induction 1 as [|x l l' H IH|x y l|l l' l'' H1 IH1 H2 IH2]; simpl.
  - constructor.
  - destruct (p x); [now constructor|exact IH].
  - destruct (p x), (p y); try reflexivity. apply perm_swap.
  - now transitivity (filter p l').
Qed.

Lemma history_rec_csv (o : OutRow) : App.history_rec (csv_row o) = history_of_row o.
Proof.
  unfold App.history_rec, history_of_row.
  cbn [csv_row c_date c_twsa_z c_sm_z c_rain_z c_rain_def_z c_asi c_class].
  now rewrite !app_r_cell.
Qed.

(** On the table written by the pipeline, the history of a basin succeeds
    exactly when the merged frame has a row of that basin; it then has one
    record per such row, each showing the scores of the table row rounded to
    3 decimal places. *)
Theorem history_of_pipeline_table (f : Frame) (gj : list Basin) (b : string) :
  ((exists r, In r (rows f) /\ basin_id r = b) <->
   exists out, App.asi_history (Some (fst (main f gj))) b = App.Ok out) /\
  (forall out, App.asi_history (Some (fst (main f gj))) b = App.Ok out ->
     out = map history_of_row
             (filter (fun o => String.eqb (t_basin_id o) b) (df_out f)) /\
     length out = length (filter (same_basin b) (rows f))).
Proof.
  rewrite main_table. unfold App.asi_history.
  rewrite filter_map_swap, map_map.
  rewrite (map_ext _ _ history_rec_csv).
  cbn [c_basin_id csv_row].
  set (sel := filter (fun o => (t_basin_id o =? b)%string) (df_out f)).
  assert (Hlen : length sel = length (filter (same_basin b) (rows f))).
  { unfold sel, df_out.
    rewrite (Permutation_length
               (perm_filter _ _ _ (sort_perm row_leb (scored f)))).
    rewrite scored_pointwise, filter_map_swap, length_map. reflexivity. }
  split.
  - split.
    + intros (r & Hr & Hb).
      assert (Hin : In (out_row f r) sel).
      { apply filter_In. split; [apply df_out_In; now exists r|].
        simpl. now apply String.eqb_eq. }
      destruct sel as [|o sel']; [destruct Hin|]. eexists. reflexivity.
    + intros (out & H). destruct sel as [|o sel'] eqn:E; [discriminate|].
      assert (Hin : In o sel) by (rewrite E; now left).
      unfold sel in Hin. apply filter_In in Hin. destruct Hin as [Ho Hb].
      apply df_out_In in Ho. destruct Ho as (r & Hr & ->).
      exists r. split; [exact Hr|]. now apply String.eqb_eq in Hb.
  - intros out H. destruct sel as [|o sel'] eqn:E; [discriminate|].
    injection H as <-. split; [reflexivity|].
    rewrite <- Hlen. simpl. now rewrite length_map.
Qed.

Lemma history_of_pipeline_table_witness :
  exists out, App.asi_history (Some (fst (main ex_frame ex_basins))) B1 = App.Ok out.
Proof.
  apply (history_of_pipeline_table ex_frame ex_basins B1).
  exists ex_row1. split; [now left|reflexivity].
Defined.

(** ** Months a snapshot can be built for *)

Lemma in_range_digit (lo hi : nat) (c : ascii) :
  App.in_range lo hi c = true ->
  (Z.of_nat lo - 48 <= App.digit_val c <= Z.of_nat hi - 48)%Z.
Proof.
  unfold App.in_range, App.digit_val. intros H.
  apply andb_true_iff in H. destruct H as [H1 H2].
  apply Nat.leb_le in H1, H2. lia.
Qed.

Lemma digit_val_range (c : ascii) :
  App.is_digit c = true -> (0 <= App.digit_val c <= 9)%Z.
Proof.
  intros H. apply in_range_digit in H.
  change (Z.of_nat 48) with 48%Z in H. change (Z.of_nat 57) with 57%Z in H. lia.
Qed.

Lemma digit19_val_range (c : ascii) :
  App.is_digit19 c = true -> (1 <= App.digit_val c <= 9)%Z.
Proof.
  intros H. apply in_range_digit in H.
  change (Z.of_nat 49) with 49%Z in H. change (Z.of_nat 57) with 57%Z in H. lia.
Qed.

Lemma digit02_val_range (c : ascii) :
  App.in_range 48 50 c = true -> (0 <= App.digit_val c <= 2)%Z.
Proof.
  intros H. apply in_range_digit in H.
  change (Z.of_nat 48) with 48%Z in H. change (Z.of_nat 50) with 50%Z in H. lia.
Qed.

Ltac month_from H :=
  match type of H with
  | Some (?a, _, _) = Some (?m, _, _) => assert (m = a) by congruence
  end.

Lemma match_month_day_range (s : string) (m d : Z) (rest : string) :
  App.match_month_day s = Some (m, d, rest) -> (1 <= m <= 12)%Z.
Proof.
  unfold App.match_month_day.
  destruct s as [|c1 s1]; [discriminate|].
  destruct s1 as [|c2 s2].
  - destruct (App.is_digit19 c1) eqn:E; [|discriminate].
    destruct (App.match_dash_day EmptyString) as [[d' r']|] eqn:E2;
      [|discriminate].
    intros H. month_from H. apply digit19_val_range in E. lia.
  - destruct (Ascii.eqb c1 "1" && App.in_range 48 50 c2) eqn:E1.
    + destruct (App.match_dash_day s2) as [[d' r']|] eqn:D1.
      * intros H. month_from H.
        apply andb_true_iff in E1. destruct E1 as [_ E1].
        apply digit02_val_range in E1. lia.
      * destruct (Ascii.eqb c1 "0" && App.is_digit19 c2) eqn:E2.
        -- rewrite D1. destruct (App.is_digit19 c1) eqn:E3; [|discriminate].
           destruct (App.match_dash_day (String c2 s2)) as [[d' r']|];
             [|discriminate].
           intros H. month_from H. apply digit19_val_range in E3. lia.
        -- destruct (App.is_digit19 c1) eqn:E3; [|discriminate].
           destruct (App.match_dash_day (String c2 s2)) as [[d' r']|];
             [|discriminate].
           intros H. month_from H. apply digit19_val_range in E3. lia.
    + destruct (Ascii.eqb c1 "0" && App.is_digit19 c2) eqn:E2.
      * destruct (App.match_dash_day s2) as [[d' r']|] eqn:D2.
        -- intros H. month_from H.
           apply andb_true_iff in E2. destruct E2 as [_ E2].
           apply digit19_val_range in E2. lia.
        -- destruct (App.is_digit19 c1) eqn:E3; [|discriminate].
           destruct (App.match_dash_day (String c2 s2)) as [[d' r']|];
             [|discriminate].
           intros H. month_from H. apply digit19_val_range in E3. lia.
      * destruct (App.is_digit19 c1) eqn:E3; [|discriminate].
        destruct (App.match_dash_day (String c2 s2)) as [[d' r']|];
          [|discriminate].
        intros H. month_from H. apply digit19_val_range in E3. lia.
Qed.

Lemma strptime_range (s : string) (y m d : Z) :
  App.strptime s = Some (y, m, d) ->
  (1 <= y <= 9999)%Z /\ (1 <= m <= 12)%Z.
Proof.
  unfold App.strptime.
  destruct s as [|y1 [|y2 [|y3 [|y4 [|dash rest]]]]]; try discriminate.
  destruct (App.is_digit y1) eqn:D1; [|discriminate].
  destruct (App.is_digit y2) eqn:D2; [|discriminate].
  destruct (App.is_digit y3) eqn:D3; [|discriminate].
  destruct (App.is_digit y4) eqn:D4; [|discriminate].
  destruct (Ascii.eqb dash "-"); [|discriminate]. cbn [andb].
  destruct (App.match_month_day rest) as [[[m' d'] [|c r]]|] eqn:E;
    try discriminate.
  destruct ((1 <=? _) && _)%Z eqn:V; [|discriminate].
  intros H.
  assert (Hm : m = m') by congruence.
  assert (Hy : y = (1000 * App.digit_val y1 + 100 * App.digit_val y2
                    + 10 * App.digit_val y3 + App.digit_val y4)%Z) by congruence.
  apply andb_true_iff in V. destruct V as [V _]. apply Z.leb_le in V.
  apply digit_val_range in D1, D2, D3, D4.
  split; [lia|]. subst m. now apply (match_month_day_range rest m' d' EmptyString).
Qed.

(** A snapshot is only ever built for a real month: whenever a snapshot
    request succeeds, its features are those of month [m] of year [y] for
    some year from 1 to 9999 and some month from 1 to 12. *)
Theorem snapshot_month_is_valid (t : list CsvRow) (basins : list Basin)
    (date : string) (feats : list Feature) :
  App.geojson_for_date (Some t) basins date = App.Ok feats ->
  exists y m, (1 <= y <= 9999)%Z /\ (1 <= m <= 12)%Z /\
              feats = features_at t basins (App.month_index y m).
Proof.
  unfold App.geojson_for_date.
  destruct (App.strptime (App.take 7 date ++ "-01")) as [[[y m] d]|] eqn:E;
    [|discriminate].
  intros [= <-]. apply strptime_range in E. destruct E as [Hy Hm].
  now exists y, m.
Qed.

Lemma snapshot_month_is_valid_witness :
  exists y m, (1 <= y <= 9999)%Z /\ (1 <= m <= 12)%Z /\
              features_at ex_csv ex_basins m2021_07 =
              features_at ex_csv ex_basins (App.month_index y m).
Proof.
  apply (snapshot_month_is_valid ex_csv ex_basins "2021-07"). reflexivity.
Defined.


Lemma short_month_text (m : Z) :
  (1 <= m <= 9)%Z ->
  App.match_month_day (String (digit_char m) "-01") = Some (m, 1%Z, EmptyString) /\
  App.match_month_day (String (digit_char m) "--01") = None.
Proof.
  intros H.
  assert (E : (m = 1 \/ m = 2 \/ m = 3 \/ m = 4 \/ m = 5 \/ m = 6 \/ m = 7 \/
               m = 8 \/ m = 9)%Z) by lia.
  destruct E as [E|[E|[E|[E|[E|[E|[E|[E|E]]]]]]]]; subst m; now split.
Qed.

(** A month before October may be written without its leading zero, but only
    when nothing follows: the 6 characters [YYYY-M] give the snapshot of that
    month, while [YYYY-M-] followed by anything is rejected with 400. *)
Theorem snapshot_short_month (t : list CsvRow) (basins : list Basin)
    (y m : Z) (sfx : string) :
  (1000 <= y <= 9999)%Z -> (1 <= m <= 9)%Z ->
  App.geojson_for_date (Some t) basins (fmt_ym_short y m) =
  App.Ok (features_at t basins (App.month_index y m)) /\
  exists e,
    App.geojson_for_date (Some t) basins (fmt_ym_short y m ++ String "-" sfx) =
    App.Raise e /\ App.status_code e = 400%Z.
Proof.
  intros Hy Hm.
  destruct (year_digits y ltac:(lia)) as (H1 & H2 & H3 & H4 & Hsum).
  destruct (is_digit_char _ H1) as [D1 V1].
  destruct (is_digit_char _ H2) as [D2 V2].
  destruct (is_digit_char _ H3) as [D3 V3].
  destruct (is_digit_char _ H4) as [D4 V4].
  destruct (short_month_text m Hm) as [P1 P2].
  assert (Hy1 : (1 <=? y)%Z = true) by (apply Z.leb_le; lia).
  unfold App.geojson_for_date, fmt_ym_short. split.
  - cbn [App.take append]. unfold App.strptime.
    rewrite D1, D2, D3, D4, V1, V2, V3, V4, Hsum.
    cbn [andb Ascii.eqb Bool.eqb].
    now rewrite P1, first_day_exists, Hy1.
  - cbn [App.take append]. replace (App.take 0 sfx) with EmptyString
      by now destruct sfx.
    cbn [append]. unfold App.strptime.
    rewrite D1, D2, D3, D4.
    cbn [andb Ascii.eqb Bool.eqb].
    rewrite P2. eexists. split; reflexivity.
Qed.

Lemma snapshot_short_month_witness :
  App.geojson_for_date (Some ex_csv) ex_basins "2021-7" =
  App.Ok (features_at ex_csv ex_basins m2021_07) /\
  exists e,
    App.geojson_for_date (Some ex_csv) ex_basins "2021-7-15" = App.Raise e /\
    App.status_code e = 400%Z.
Proof.
  apply (snapshot_short_month ex_csv ex_basins 2021 7 "15"); lia.
Defined.

(** ** The class filter of a ranking *)

Lemma lstrip_spaces (s : string) : spaces s = true -> App.lstrip s = EmptyString.
Proof.
  induction s as [|c s IH]; simpl; [reflexivity|].
  intros H. apply andb_true_iff in H. destruct H as [H1 H2].
  rewrite H1. now apply IH.
Qed.

Lemma split_blank (s : string) :
  blank s = true -> forall p, In p (App.split "," s) -> spaces p = true.
Proof.
  induction s as [|c s IH]; simpl.
  - intros _ p [<-|[]]. reflexivity.
  - intros H. apply andb_true_iff in H. destruct H as [Hc Hs].
    specialize (IH Hs).
    destruct (Ascii.eqb c ",") eqn:E.
    + intros p [<-|Hp]; [reflexivity|now apply IH].
    + simpl in Hc.
      destruct (App.split "," s) as [|h tl].
      * intros p [<-|[]]. simpl. now rewrite Hc.
      * intros p [<-|Hp].
        -- simpl. rewrite Hc. apply IH. now left.
        -- apply IH. now right.
Qed.

Lemma filter_none {A : Type} (p : A -> bool) (l : list A) :
  (forall x, In x l -> p x = false) -> filter p l = [].
Proof.
  induction l as [|a l IH]; intros H; simpl; [reflexivity|].
  rewrite (H a) by now left. apply IH. intros x Hx. apply H. now right.
Qed.

Lemma wanted_blank (classes : string) :
  blank classes = true -> App.wanted_of classes = [].
Proof.
  intros H. unfold App.wanted_of. rewrite filter_none; [reflexivity|].
  intros p Hp. unfold App.strip.
  now rewrite (lstrip_spaces p (split_blank classes H p Hp)).
Qed.

(** A class filter made only of commas and white space selects nothing in
    particular: the ranking is the unfiltered ranking, as with the empty
    filter. *)
Theorem blank_class_filter_is_no_filter (limit : option Z) (classes : string)
    (gj : list Feature) :
  blank classes = true ->
  App.asi_top10 limit (Some classes) gj = App.asi_top10 limit (Some ""%string) gj.
Proof.
  intros H. unfold App.asi_top10.
  now rewrite (wanted_blank classes H), wanted_empty.
Qed.

Lemma blank_class_filter_is_no_filter_witness :
  App.asi_top10 None (Some " , ,"%string) ex_gj =
  App.asi_top10 None (Some ""%string) ex_gj.
Proof.
  apply (blank_class_filter_is_no_filter None " , ," ex_gj). reflexivity.
Defined.


(** * Responses, field by field *)

Lemma Forall2_map_r {A B : Type} (P : A -> B -> Prop) (g : A -> B) (l : list A) :
  (forall x, In x l -> P x (g x)) -> Forall2 P l (map g l).
Proof.
  induction l as [|a l IH]; intros H; simpl; constructor.
  - apply H. now left.
  - apply IH. intros x Hx. apply H. now right.
Qed.

Lemma app_r_cell_rounded (c : Cell) : App._r (App.PyStr c) = cell_rounded c.
Proof. now destruct c. Qed.

(** ** History *)

Lemma history_rec_shows (row : CsvRow) : shows_line row (App.history_rec row).
Proof.
  unfold shows_line, history_scores, score_cells, App.history_rec.
  cbn [App.h_date App.h_class App.h_twsa_z App.h_sm_z App.h_rain_z
       App.h_rain_def_z App.h_asi map].
  now rewrite !app_r_cell_rounded.
Qed.

Lemma history_ok_shows (table : option (list CsvRow)) (b : string)
    (out : list App.HistoryRec) :
  App.asi_history table b = App.Ok out -> Forall2 shows_line (rows_of table b) out.
Proof.
  unfold App.asi_history, rows_of. destruct table as [t|]; [|discriminate].
  destruct (filter (fun row => String.eqb (c_basin_id row) b) t) as [|x l];
    [discriminate|].
  intros H. injection H as <-.
  apply (Forall2_map_r shows_line App.history_rec (x :: l)).
  intros row _. apply history_rec_shows.
Qed.



(** ** Ranking *)

Lemma sort_map {A B : Type} (leb : B -> B -> bool) (g : A -> B) (l : list A) :
  sort leb (map g l) = map g (sort (fun a b => leb (g a) (g b)) l).
Proof.
  induction l as [|x l IH]; simpl; [reflexivity|]. rewrite IH.
  generalize (sort (fun a b => leb (g a) (g b)) l). intros s.
  induction s as [|y s IHs]; simpl; [reflexivity|].
  destruct (leb (g x) (g y)); simpl; [reflexivity|]. now rewrite IHs.
Qed.

Lemma numeric_rows_features (gj : list Feature) :
  App.numeric_rows gj =
  map (fun a => App.rank_row (fst a) (snd a)) (numeric_features gj).
Proof.
  induction gj as [|ft gj IH]; simpl; [reflexivity|].
  destruct (p_asi ft); simpl; now rewrite IH.
Qed.

Lemma numeric_features_In (gj : list Feature) (a : Feature * R) :
  In a (numeric_features gj) <-> In (fst a) gj /\ p_asi (fst a) = Some (snd a).
Proof.
  destruct a as [ft x]. simpl. induction gj as [|ft' gj IH]; simpl.
  - tauto.
  - destruct (p_asi ft') as [y|] eqn:E; simpl; rewrite IH; split.
    + intros [[= -> ->]|[H1 H2]]; auto.
    + intros [[->|H1] H2]; [left; congruence|right; auto].
    + intros [H1 H2]; auto.
    + intros [[->|H1] H2]; [congruence|auto].
Qed.

Lemma rank_row_shows (a : Feature * R) :
  shows_feature a (App.rank_row (fst a) (snd a)).
Proof.
  unfold shows_feature, App.rank_row. simpl. repeat split.
Qed.

Lemma rank_row_key (a : Feature * R) : has_key (App.rank_row (fst a) (snd a)).
Proof.
  eexists. reflexivity.
Qed.

Lemma picked_sorted (l : list (Feature * R)) :
  StronglySorted (fun a b => round (snd a) 3 <= round (snd b) 3)
    (sort (fun a b => App.asi_leb (App.rank_row (fst a) (snd a))
                                  (App.rank_row (fst b) (snd b))) l).
Proof.
  set (leb' := fun a b : Feature * R =>
                 App.asi_leb (App.rank_row (fst a) (snd a))
                             (App.rank_row (fst b) (snd b))).
  assert (Hs : StronglySorted (fun a b => leb' a b = true) (sort leb' l)).
  { apply (sort_sorted leb' (fun _ => True)).
    - intros a b _ _. apply asi_leb_total; apply rank_row_key.
    - intros a b c _ _ _. apply asi_leb_trans; apply rank_row_key.
    - apply Forall_forall. auto. }
  rewrite <- (map_id (sort leb' l)).
  apply (StronglySorted_map (fun a b => leb' a b = true)); [|exact Hs].
  intros a b _ _ H. unfold leb' in H.
  apply asi_leb_le in H; [exact H|apply rank_row_key..].
Qed.

(** C9. Ranking with an empty class filter returns one row for every feature
    having a numeric composite score, whatever its class: the features are
    sorted ascending by composite score (as rounded to 3 decimal places,
    which is the score itself in the snapshots the system builds), cut to the
    first [limit] of them (all of them when [limit] is large enough), and each
    row shows the basin, name, class, date and score of its feature; with
    [limit] 0 the result is the empty list, whatever the filter. *)
Theorem ranking_empty_filter (limit : Z) (gj : list Feature) :
  (exists full,
     Permutation full (App.numeric_rows gj) /\
     StronglySorted asi_le full /\
     App.asi_top10 (Some limit) (Some ""%string) gj =
     firstn (Z.to_nat (Z.max 0 limit)) full) /\
  (forall r, In r (App.numeric_rows gj) <->
     exists ft asi, In ft gj /\ p_asi ft = Some asi /\ r = App.rank_row ft asi) /\
  StronglySorted asi_le (App.asi_top10 (Some limit) (Some ""%string) gj) /\
  ((Z.of_nat (length (App.numeric_rows gj)) <= limit)%Z ->
   Permutation (App.asi_top10 (Some limit) (Some ""%string) gj)
     (App.numeric_rows gj)) /\
  (forall classes, App.asi_top10 (Some 0%Z) classes gj = []) /\
  (exists picked,
     Permutation picked (numeric_features gj) /\
     (forall a, In a picked -> In (fst a) gj /\ p_asi (fst a) = Some (snd a)) /\
     StronglySorted (fun a b => round (snd a) 3 <= round (snd b) 3) picked /\
     Forall2 shows_feature
       (firstn (Z.to_nat (Z.max 0 limit)) picked)
       (App.asi_top10 (Some limit) (Some ""%string) gj) /\
     ((forall ft x, In ft gj -> p_asi ft = Some x -> rounded3 x) ->
      StronglySorted (fun a b => snd a <= snd b) picked /\
      Forall2 (fun a r => App.r_asi r = p_asi (fst a))
        (firstn (Z.to_nat (Z.max 0 limit)) picked)
        (App.asi_top10 (Some limit) (Some ""%string) gj))).
Proof.
  pose proof (sort_asi_sorted _ (numeric_rows_keys gj)) as Hs.
  pose proof (sort_perm App.asi_leb (App.numeric_rows gj)) as Hp.
  rewrite top10_unfiltered.
  split; [|split; [|split; [|split; [|split]]]].
  - exists (sort App.asi_leb (App.numeric_rows gj)). auto.
  - apply numeric_rows_In.
  - now apply StronglySorted_firstn.
  - intros Hl. rewrite firstn_all2; [exact Hp|].
    rewrite (Permutation_length Hp). lia.
  - reflexivity.
  - set (g := fun a : Feature * R => App.rank_row (fst a) (snd a)).
    set (leb' := fun a b : Feature * R => App.asi_leb (g a) (g b)).
    set (picked := sort leb' (numeric_features gj)).
    set (n := Z.to_nat (Z.max 0 limit)).
    assert (Hout : firstn n (sort App.asi_leb (App.numeric_rows gj))
                   = map g (firstn n picked)).
    { rewrite numeric_rows_features. fold g. rewrite sort_map. fold leb' picked.
      apply firstn_map. }
    assert (Hin : forall a, In a picked ->
                    In (fst a) gj /\ p_asi (fst a) = Some (snd a)).
    { intros a Ha. apply numeric_features_In.
      now apply (proj1 (sort_In leb' _ a)). }
    assert (Hsorted : StronglySorted
                        (fun a b => round (snd a) 3 <= round (snd b) 3) picked)
      by apply picked_sorted.
    exists picked. rewrite Hout.
    split; [apply sort_perm|]. split; [exact Hin|]. split; [exact Hsorted|].
    split.
    + apply Forall2_map_r. intros a _. apply rank_row_shows.
    + intros Hr.
      assert (Hid : forall a, In a picked -> round (snd a) 3 = snd a).
      { intros a Ha. destruct (Hin a Ha) as [H1 H2].
        destruct (Hr _ _ H1 H2) as [k ->]. apply round_thousandths. }
      split.
      * rewrite <- (map_id picked).
        apply (StronglySorted_map
                 (fun a b => round (snd a) 3 <= round (snd b) 3));
          [|exact Hsorted].
        intros a b Ha Hb H. now rewrite (Hid a Ha), (Hid b Hb) in H.
      * apply Forall2_map_r. intros a Ha. apply In_firstn in Ha.
        destruct (Hin a Ha) as [_ H2]. rewrite H2. unfold g. simpl.
        now rewrite (Hid a Ha).
Qed.

Lemma ranking_empty_filter_witness :
  Permutation (App.asi_top10 (Some 10%Z) (Some ""%string) ex_gj)
    (App.numeric_rows ex_gj).
Proof.
  apply (ranking_empty_filter 10 ex_gj).
  rewrite ex_rank_rows. simpl. lia.
Defined.

(** ** Where values are rounded *)

Lemma pipeline_r_rounded (v : value) : Pipeline._r v = rounded v.
Proof. now destruct v. Qed.

Lemma table_line_computed (f : Frame) (gj : list Basin) (c : CsvRow) :
  In c (fst (main f gj)) <-> exists r, In r (rows f) /\ c = csv_row (out_row f r).
Proof.
  rewrite main_table, in_map_iff. split.
  - intros (o & <- & Ho). apply df_out_In in Ho. destruct Ho as (r & Hr & ->).
    now exists r.
  - intros (r & Hr & ->). exists (out_row f r). split; [reflexivity|].
    apply df_out_In. now exists r.
Qed.

Lemma feature_of_scores (t : list OutRow) (g : Basin) :
  numeric_props (feature_of t g) = [nan; nan; nan; nan; nan] \/
  exists o, In o t /\ t_basin_id o = bid_of g /\
    numeric_props (feature_of t g) = map rounded (scores o).
Proof.
  unfold feature_of.
  destruct (Pipeline.by_id_get (latest t) (bid_of g)) as [row|] eqn:E.
  - right. exists row. split; [|split].
    + apply latest_In. now apply by_id_get_In in E.
    + unfold Pipeline.by_id_get in E. apply find_some in E.
      destruct E as [_ E]. now apply String.eqb_eq in E.
    + unfold numeric_props, scores.
      cbn [p_twsa_z p_sm_z p_rain_z p_rain_def_z p_asi map].
      now rewrite !pipeline_r_rounded.
  - left. reflexivity.
Qed.

Lemma feature_for_scores (target : Z) (rows : list CsvRow) (g : Basin) :
  numeric_props (App.feature_for target rows g) = [nan; nan; nan; nan; nan] \/
  exists c, In c rows /\ c_basin_id c = bid_of g /\
    numeric_props (App.feature_for target rows g) = map cell_rounded (score_cells c).
Proof.
  unfold App.feature_for.
  destruct (App.by_id_get rows (bid_of g)) as [c|] eqn:E.
  - right. exists c. unfold App.by_id_get in E. apply find_some in E.
    destruct E as [Hin E]. split; [|split].
    + now apply in_rev.
    + now apply String.eqb_eq in E.
    + unfold numeric_props, score_cells.
      cbn [p_twsa_z p_sm_z p_rain_z p_rain_def_z p_asi map].
      now rewrite !app_r_cell_rounded.
  - left. reflexivity.
Qed.

Lemma history_scores_of_row (o : OutRow) :
  history_scores (App.history_rec (csv_row o)) = map rounded (scores o).
Proof.
  rewrite history_rec_csv. unfold history_scores, history_of_row, scores.
  cbn [App.h_twsa_z App.h_sm_z App.h_rain_z App.h_rain_def_z App.h_asi map].
  now rewrite !pipeline_r_rounded.
Qed.

Lemma history_of_computed_rows (f : Frame) (gj : list Basin) (b : string)
    (out : list App.HistoryRec) (h : App.HistoryRec) :
  App.asi_history (Some (fst (main f gj))) b = App.Ok out -> In h out ->
  exists r, In r (rows f) /\ basin_id r = b /\ App.h_date h = date r /\
    history_scores h = map rounded (scores (out_row f r)).
Proof.
  unfold App.asi_history.
  destruct (map App.history_rec
              (filter (fun row => String.eqb (c_basin_id row) b) (fst (main f gj))))
    as [|x l] eqn:E; [discriminate|].
  intros H Hh. injection H as <-. rewrite <- E in Hh.
  apply in_map_iff in Hh. destruct Hh as (c & <- & Hc).
  apply filter_In in Hc. destruct Hc as [Hc Hb].
  apply table_line_computed in Hc. destruct Hc as (r & Hr & ->).
  exists r. split; [exact Hr|]. split; [now apply String.eqb_eq in Hb|].
  split; [reflexivity|apply history_scores_of_row].
Qed.

(** C7 (amended). A line of the persisted table carries every numeric value
    of its row as computed, without rounding, and every absent value as the
    empty text, never as 0 and never as the text nan: the lines of the table
    are exactly the rows computed from the merged frame, each cell holding
    the computed value itself.  Rounding to 3 decimal places is applied by
    [_r] where values leave the table.  In the snapshot artifact every
    numeric property of a feature is null exactly when the value is absent
    and has at most 3 decimal places otherwise, and the properties of a
    feature are all null or are the scores of a computed row of its basin,
    each rounded.  In the query responses [_r] gives null for an empty or
    non-numeric cell and the rounded number otherwise; a history record shows
    the scores of its line rounded, a feature of the snapshot of a month
    shows the scores of a line of its basin rounded (or nulls), and a ranking
    row shows the composite score of its feature rounded. *)
Theorem table_unrounded_snapshot_rounded (f : Frame) (gj : list Basin) :
  (forall c, In c (fst (main f gj)) ->
     exists o, In o (df_out f) /\
       numeric_cells c = map cell_of (numeric_values o)) /\
  (forall x, cell_of (Some x) = Num x) /\
  (cell_of nan = Empty /\ Empty <> Num 0 /\ Empty <> Text "nan") /\
  (forall ft v x, In ft (snd (main f gj)) -> In v (numeric_props ft) ->
     v = Some x -> rounded3 x) /\
  (forall v, Pipeline._r v = None <-> v = nan) /\
  (forall c, In c (fst (main f gj)) <->
     exists r, In r (rows f) /\ c = csv_row (out_row f r)) /\
  (forall ft, In ft (snd (main f gj)) ->
     numeric_props ft = [nan; nan; nan; nan; nan] \/
     exists r, In r (rows f) /\ basin_id r = bid_of (f_basin ft) /\
       numeric_props ft = map rounded (scores (out_row f r))) /\
  ((forall c, App._r (App.PyStr c) = cell_rounded c) /\
   (forall v, App._r (App.PyStr (cell_of v)) = rounded v) /\
   (forall x, App._r (App.PyNum x) = Some (round x 3)) /\
   App._r App.PyNone = None) /\
  (forall table b out, App.asi_history table b = App.Ok out ->
     Forall2 shows_line (rows_of table b) out) /\
  (forall b out h, App.asi_history (Some (fst (main f gj))) b = App.Ok out ->
     In h out ->
     exists r, In r (rows f) /\ basin_id r = b /\ App.h_date h = date r /\
       history_scores h = map rounded (scores (out_row f r))) /\
  (forall t basins date feats ft,
     App.geojson_for_date (Some t) basins date = App.Ok feats -> In ft feats ->
     numeric_props ft = [nan; nan; nan; nan; nan] \/
     exists c, In c t /\ c_basin_id c = bid_of (f_basin ft) /\
       numeric_props ft = map cell_rounded (score_cells c)) /\
  (forall limit classes snap r, In r (App.asi_top10 limit classes snap) ->
     exists ft x, In ft snap /\ p_asi ft = Some x /\
       App.r_asi r = Some (round x 3)).
Proof.
  split; [|split; [|split; [|split; [|split; [|split; [|split;
    [|split; [|split; [|split; [|split]]]]]]]]]].
  - intros c Hc. rewrite main_table in Hc. apply in_map_iff in Hc.
    destruct Hc as (o & <- & Ho). exists o. now split.
  - reflexivity.
  - repeat split; discriminate.
  - intros ft v x Hft Hv E. rewrite main_snapshot in Hft.
    apply in_map_iff in Hft. destruct Hft as (g & <- & _).
    now apply (feature_props_rounded (df_out f) g v x).
  - intros [x|]; simpl; split; intros H; try discriminate; reflexivity.
  - intros c. apply table_line_computed.
  - intros ft Hft. rewrite main_snapshot in Hft. apply in_map_iff in Hft.
    destruct Hft as (g & <- & _).
    assert (Hg : f_basin (feature_of (df_out f) g) = g).
    { unfold feature_of. now destruct (Pipeline.by_id_get _ _). }
    rewrite Hg.
    destruct (feature_of_scores (df_out f) g) as [H|(o & Ho & Hb & H)];
      [now left|right].
    apply df_out_In in Ho. destruct Ho as (r & Hr & ->). now exists r.
  - split; [apply app_r_cell_rounded|]. split; [|split; reflexivity].
    intros v. now destruct v.
  - apply history_ok_shows.
  - intros b out h. apply history_of_computed_rows.
  - intros t basins date feats ft H Hft. unfold App.geojson_for_date in H.
    destruct (App.strptime _) as [[[y m] d]|]; [|discriminate].
    injection H as <-. apply in_map_iff in Hft. destruct Hft as (g & <- & _).
    rewrite (proj1 (feature_for_basin _ _ g)).
    destruct (feature_for_scores (App.month_index y m)
                (filter (App.on_month (App.month_index y m)) t) g)
      as [H|(c & Hc & Hb & H)]; [now left|right].
    exists c. apply filter_In in Hc. now destruct Hc.
  - intros limit classes snap r H.
    apply top10_In_numeric, numeric_rows_In in H.
    destruct H as (ft & x & Hft & Hx & ->). now exists ft, x.
Qed.

Lemma table_unrounded_snapshot_rounded_witness :
  (exists o, In o (df_out ex_frame) /\
     numeric_cells (csv_row ex_out1) = map cell_of (numeric_values o)) /\
  Forall2 shows_line (rows_of (Some ex_csv) B1) (map App.history_rec ex_csv) /\
  (exists ft x, In ft ex_gj /\ p_asi ft = Some x /\
     App.r_asi ex_rank_alert = Some (round x 3)).
Proof.
  destruct (table_unrounded_snapshot_rounded ex_frame ex_basins)
    as (Ht & _ & _ & _ & _ & _ & _ & _ & Hh & _ & _ & Hr).
  split; [|split].
  - apply Ht. rewrite main_table. apply in_map. exact ex_out1_in_table.
  - apply Hh. reflexivity.
  - apply (Hr None (Some ""%string) ex_gj ex_rank_alert).
    rewrite ranking_unfiltered_example. now left.
Defined.

(** C7 as stated fails: the line of basin B1 for 2021-06 holds the composite
    score -1/3 in full, which has more than 3 decimal places. *)
Lemma table_rounding_counterexample :
  In (csv_row ex_out1) (fst (main ex_frame ex_basins)) /\
  c_asi (csv_row ex_out1) = Num (-1 / 3) /\
  ~ rounded3 (-1 / 3).
Proof.
  split; [|split].
  - rewrite main_table. apply in_map. exact ex_out1_in_table.
  - reflexivity.
  - exact third_not_rounded3.
Qed.
